(** * Required Return Calculator (Gordon Growth Model): model and proofs

    A shallow embedding of the calculation, validation, store and update
    code of the calculator, followed by the properties proved of it.

    - JavaScript numbers are IEEE 754 binary64 values: Rocq's primitive
      [float], whose [+], [*], [/], [<?], [<=?] are the operators of the
      source.  Equality of numbers in statements is identity of the value
      (one NaN, signed zeros distinct).
    - [Math.pow] is a built-in whose result ECMAScript leaves to the engine
      ("implementation-approximated"); it is a member of the [Platform]
      class and every definition that reaches it is parametric in it.
    - Integer-valued numbers that only count (the loop variable [year], the
      bounds written in the rule table) are [nat] / [Z] and are converted
      where the source uses them in arithmetic. *)

From Stdlib Require Import Floats ZArith Bool List Uint63.
From stdpp Require Import gmap strings pretty.

Set Warnings "-inexact-float".
Local Open Scope float_scope.

(** ** The platform *)

Class Platform := {
  (** [Math.pow(base, exponent)] *)
  Math_pow : float → float → float
}.

(** A reference platform used to run the model on concrete inputs.  As in
    the engines' [pow], the exponent 0 gives 1 and the exponent 1 gives the
    base itself; other small positive integers are repeated products. *)
Fixpoint pow_iter (fuel : nat) (x y : float) : float :=
  if y =? 0 then 1
  else if y =? 1 then x
  else match fuel with
       | O => nan
       | S k => x * pow_iter k x (y - 1)
       end.

Definition reference_platform : Platform :=
  {| Math_pow := pow_iter 64 |}.

(** Integer-valued numbers (exact below 2^53 in magnitude). *)
Definition Number_of_Z (z : Z) : float :=
  if (z <? 0)%Z then - of_uint63 (Uint63.of_Z (- z))
  else of_uint63 (Uint63.of_Z z).

Definition Number_of_nat (n : nat) : float := Number_of_Z (Z.of_nat n).

(** [x > y] and [x >= y] of the source. *)
Notation "x >? y" := (PrimFloat.ltb y x) (at level 70, only parsing) : float_scope.
Notation "x >=? y" := (PrimFloat.leb y x) (at level 70, only parsing) : float_scope.

(** ** calculations: the Gordon Growth Model *)

Module Calculations.

Record ReturnData := {
  requiredReturn : float;
  requiredReturnDecimal : float;
  d1 : float;
  dividendYield : float;
  dividendYieldDecimal : float;
  growthRateDecimal : float;
  isValid : bool
}.

Record CashFlowPoint := {
  year : nat;
  dividend : float;
  investment : float;
  totalCashFlow : float;
  cumulativeCashFlow : float
}.

(** The object [{ ...returnData, cashFlows }]. *)
Record ReturnMetrics := {
  returnData :> ReturnData;
  cashFlows : list CashFlowPoint
}.

(** [calculateRequiredReturn({ marketPrice, currentDividend, growthRate })] *)
Definition calculateRequiredReturn
    (marketPrice currentDividend growthRate : float) : ReturnData :=
  let g := growthRate / 100 in
  let d1 := currentDividend * (1 + g) in
  let dividendYield := d1 / marketPrice in
  let requiredReturn := dividendYield + g in
  let requiredReturnPct := requiredReturn * 100 in
  let dividendYieldPct := dividendYield * 100 in
  {| requiredReturn := requiredReturnPct;
     requiredReturnDecimal := requiredReturn;
     d1 := d1;
     dividendYield := dividendYieldPct;
     dividendYieldDecimal := dividendYield;
     growthRateDecimal := g;
     isValid := (requiredReturn >? 0) && (g <? requiredReturn) |}.

(** [calculateGordonPrice(d1, r, g)]: [inl msg] is [throw new Error(msg)]. *)
Definition calculateGordonPrice (d1 r g : float) : string + float :=
  if g >=? r then inl "Growth rate must be less than required return"%string
  else inr (d1 / (r - g)).

Section WithPlatform.
Context `{Platform}.

(** The [for (let year = 1; year <= years; year++)] loop of
    [generateCashFlows]: [remaining] counts the iterations still to run
    ([years - year + 1]), [cumulativeTotal] and [cashFlows] are the two
    variables the body updates. *)
Fixpoint cashFlowsLoop (currentDividend growthRateDecimal : float)
    (remaining year : nat) (cumulativeTotal : float)
    (cashFlows : list CashFlowPoint) : list CashFlowPoint :=
  match remaining with
  | O => cashFlows
  | S remaining' =>
      let dividend :=
        currentDividend * Math_pow (1 + growthRateDecimal) (Number_of_nat year) in
      let cumulativeTotal := cumulativeTotal + dividend in
      cashFlowsLoop currentDividend growthRateDecimal remaining' (S year)
        cumulativeTotal
        (cashFlows ++ [ {| year := year;
                           dividend := dividend;
                           investment := 0;
                           totalCashFlow := dividend;
                           cumulativeCashFlow := cumulativeTotal |} ])
  end.

(** [generateCashFlows({ marketPrice, currentDividend, growthRateDecimal,
    years = 10 })]; [years = None] is the omitted property.  [years] is the
    number of passes the loop makes, the count of integers in
    [1 .. years]. *)
Definition generateCashFlows
    (marketPrice currentDividend growthRateDecimal : float)
    (years : option nat) : list CashFlowPoint :=
  let years := default 10%nat years in
  let cashFlows :=
    [] ++ [ {| year := 0;
               dividend := 0;
               investment := - marketPrice;
               totalCashFlow := - marketPrice;
               cumulativeCashFlow := - marketPrice |} ] in
  let cumulativeTotal := - marketPrice in
  cashFlowsLoop currentDividend growthRateDecimal years 1
    cumulativeTotal cashFlows.

(** [calculateRequiredReturnMetrics(params)] *)
Definition calculateRequiredReturnMetrics
    (marketPrice currentDividend growthRate : float) : ReturnMetrics :=
  let returnData :=
    calculateRequiredReturn marketPrice currentDividend growthRate in
  let cashFlows :=
    generateCashFlows marketPrice currentDividend
      (growthRateDecimal returnData) (Some 10%nat) in
  {| returnData := returnData; cashFlows := cashFlows |}.

End WithPlatform.

End Calculations.

(** ** validation: static rules and the per-field check *)

Module Validation.

(** The values [validateField] is applied to: the result of [parseFloat]
    ([JsNumber], NaN included), a property that is missing ([JsUndefined]),
    [null], and the empty string the required-check names.  A non-empty
    string never reaches it. *)
Inductive JsValue :=
| JsUndefined
| JsNull
| JsEmptyString
| JsNumber (x : float).

(** [ToNumber] of the language, as [isNaN] and [<] apply it. *)
Definition ToNumber (v : JsValue) : float :=
  match v with
  | JsUndefined => nan
  | JsNull => 0
  | JsEmptyString => 0
  | JsNumber x => x
  end.

Definition isNaN (v : JsValue) : bool := is_nan (ToNumber v).

(** [value === ''] and [value == null] *)
Definition is_empty_string (v : JsValue) : bool :=
  match v with JsEmptyString => true | _ => false end.

Definition is_nullish (v : JsValue) : bool :=
  match v with JsUndefined | JsNull => true | _ => false end.

(** Truthiness of a string-or-absent property. *)
Definition truthy (s : option string) : bool :=
  match s with
  | Some s => negb (bool_decide (s = ""%string))
  | None => false
  end.

Module Rule.
Record t := {
  min : option Z;
  max : option Z;
  required : bool;
  label : string;
  prefix : option string;
  unit : option string
}.
End Rule.

Definition VALIDATION_RULES : list (string * Rule.t) :=
  [ ("marketPrice"%string,
     {| Rule.min := Some 1%Z; Rule.max := Some 500%Z; Rule.required := true;
        Rule.label := "Market price"; Rule.prefix := Some "USD"%string;
        Rule.unit := None |});
    ("currentDividend"%string,
     {| Rule.min := Some 0%Z; Rule.max := Some 50%Z; Rule.required := true;
        Rule.label := "Current dividend"; Rule.prefix := Some "USD"%string;
        Rule.unit := None |});
    ("growthRate"%string,
     {| Rule.min := Some 0%Z; Rule.max := Some 25%Z; Rule.required := true;
        Rule.label := "Growth rate"; Rule.prefix := None;
        Rule.unit := Some "%"%string |}) ].

(** [VALIDATION_RULES[field]] *)
Fixpoint rules_of (table : list (string * Rule.t)) (field : string)
    : option Rule.t :=
  match table with
  | [] => None
  | (k, r) :: table' => if bool_decide (k = field) then Some r else rules_of table' field
  end.

(** [`${bound}`] for a bound of the table. *)
Definition bound_to_string (bound : option Z) : string :=
  match bound with
  | Some z => pretty z
  | None => "undefined"
  end.

(** [rules.prefix ? `${rules.prefix} ${bound}` : `${bound}${rules.unit || ''}`] *)
Definition display (rules : Rule.t) (bound : option Z) : string :=
  if truthy (Rule.prefix rules)
  then default ""%string (Rule.prefix rules) +:+ " " +:+ bound_to_string bound
  else bound_to_string bound
       +:+ (if truthy (Rule.unit rules) then default ""%string (Rule.unit rules)
            else ""%string).

Definition required_message (rules : Rule.t) : string :=
  Rule.label rules +:+ " is required".

Definition range_message (rules : Rule.t) : string :=
  let minDisplay := display rules (Rule.min rules) in
  let maxDisplay := display rules (Rule.max rules) in
  Rule.label rules +:+ " must be between " +:+ minDisplay +:+ " and " +:+ maxDisplay.

(** [rules.min !== undefined && value < rules.min] *)
Definition below (value : JsValue) (bound : option Z) : bool :=
  match bound with
  | Some m => ToNumber value <? Number_of_Z m
  | None => false
  end.

(** [rules.max !== undefined && value > rules.max] *)
Definition above (value : JsValue) (bound : option Z) : bool :=
  match bound with
  | Some m => ToNumber value >? Number_of_Z m
  | None => false
  end.

(** [validateField(field, value)]: [None] is [null]. *)
Definition validateField (field : string) (value : JsValue) : option string :=
  match rules_of VALIDATION_RULES field with
  | None => None
  | Some rules =>
      if Rule.required rules
         && (is_empty_string value || is_nullish value || isNaN value)
      then Some (required_message rules)
      else if below value (Rule.min rules) then Some (range_message rules)
      else if above value (Rule.max rules) then Some (range_message rules)
      else None
  end.

(** [validateAllInputs(inputs)]: [inputs[field]] of a missing property is
    [undefined]. *)
Definition validateAllInputs (inputs : gmap string JsValue) : gmap string string :=
  fold_left
    (fun errors field =>
       let error := validateField field (default JsUndefined (inputs !! field)) in
       if truthy error then <[field := default ""%string error]> errors else errors)
    (map fst VALIDATION_RULES) ∅.

(** [hasErrors(errors)]: [Object.keys(errors).length > 0] *)
Definition hasErrors (errors : gmap string string) : bool :=
  (0 <? length (map fst (map_to_list errors)))%nat.

End Validation.

(** ** state: the observable store *)

Module Store.
Import Calculations Validation.

(** An observer is a function object; the model keeps its identity.  What
    the store does with observers is recorded as the sequence of calls
    [fn(state)], each with the state the callee is handed.  Observers are
    the renderers: they read the state, return normally and do not call back
    into the store. *)
Definition Listener := nat.

(** The singleton [state] object: the properties of its literal, and
    [others] for any property added to it later. *)
Module State.
Record t := {
  marketPrice : float;
  currentDividend : float;
  growthRate : float;
  viewMode : string;
  errors : gmap string string;
  returnCalculations : option ReturnMetrics;
  listeners : list Listener;
  others : gmap string JsValue
}.

(** The object with its [listeners] property replaced. *)
Definition set_listeners (l : list Listener) (s : t) : t :=
  {| marketPrice := marketPrice s;
     currentDividend := currentDividend s;
     growthRate := growthRate s;
     viewMode := viewMode s;
     errors := errors s;
     returnCalculations := returnCalculations s;
     listeners := l;
     others := others s |}.
End State.

(** A partial-update object: a property that is [None] is not named by the
    object ([returnCalculations := Some None] is [{ returnCalculations:
    null }]). *)
Module Updates.
Record t := {
  marketPrice : option float;
  currentDividend : option float;
  growthRate : option float;
  viewMode : option string;
  errors : option (gmap string string);
  returnCalculations : option (option ReturnMetrics);
  listeners : option (list Listener);
  others : gmap string JsValue
}.

(** [{ returnCalculations: c }] *)
Definition of_returnCalculations (c : option ReturnMetrics) : t :=
  {| marketPrice := None; currentDividend := None; growthRate := None;
     viewMode := None; errors := None; returnCalculations := Some c;
     listeners := None; others := ∅ |}.

(** [{ viewMode: view }] *)
Definition of_viewMode (view : string) : t :=
  {| marketPrice := None; currentDividend := None; growthRate := None;
     viewMode := Some view; errors := None; returnCalculations := None;
     listeners := None; others := ∅ |}.

(** [{ [field]: value, errors }] for a numeric [value]: [field] is one of
    the three input properties, any other name is a new property. *)
Definition of_field_and_errors (field : string) (value : float)
    (errors0 : gmap string string) : t :=
  {| marketPrice := if bool_decide (field = "marketPrice"%string) then Some value else None;
     currentDividend := if bool_decide (field = "currentDividend"%string) then Some value else None;
     growthRate := if bool_decide (field = "growthRate"%string) then Some value else None;
     viewMode := None;
     errors := Some errors0;
     returnCalculations := None;
     listeners := None;
     others :=
       if bool_decide (field ∈ ["marketPrice"; "currentDividend"; "growthRate"]%string)
       then ∅ else {[ field := JsNumber value ]} |}.

(** [{ [key]: value }] for a property outside the literal. *)
Definition of_other (key : string) (value : JsValue) : t :=
  {| marketPrice := None; currentDividend := None; growthRate := None;
     viewMode := None; errors := None; returnCalculations := None;
     listeners := None; others := {[ key := value ]} |}.
End Updates.

(** [export const state = { ... }] *)
Definition state : State.t :=
  {| State.marketPrice := 54.56;
     State.currentDividend := 5.10;
     State.growthRate := 6.40;
     State.viewMode := "chart";
     State.errors := ∅;
     State.returnCalculations := None;
     State.listeners := [];
     State.others := ∅ |}.

(** One call [fn(state)] of an observer. *)
Record Call := { callee : Listener; argument : State.t }.

(** Code that reads and writes the singleton and calls observers. *)
Definition Eff (A : Type) : Type := State.t → A * State.t * list Call.

#[export] Instance Eff_ret : MRet Eff := fun A a s => (a, s, []).

#[export] Instance Eff_bind : MBind Eff := fun A B k m s =>
  let '(a, s1, calls1) := m s in
  let '(b, s2, calls2) := k a s1 in
  (b, s2, calls1 ++ calls2).

Definition get : Eff State.t := fun s => (s, s, []).
Definition put (s : State.t) : Eff unit := fun _ => (tt, s, []).

(** [fn(state)]: the observer is handed the singleton as it is now. *)
Definition call (fn : Listener) : Eff unit :=
  fun s => (tt, s, [ {| callee := fn; argument := s |} ]).

(** [array.forEach(f)] *)
Fixpoint forEach {A} (array : list A) (f : A → Eff unit) : Eff unit :=
  match array with
  | [] => mret tt
  | x :: array' => f x ;; forEach array' f
  end.

(** [Object.assign(target, source)] on the state object. *)
Definition Object_assign (target : State.t) (source : Updates.t) : State.t :=
  {| State.marketPrice := default (State.marketPrice target) (Updates.marketPrice source);
     State.currentDividend := default (State.currentDividend target) (Updates.currentDividend source);
     State.growthRate := default (State.growthRate target) (Updates.growthRate source);
     State.viewMode := default (State.viewMode target) (Updates.viewMode source);
     State.errors := default (State.errors target) (Updates.errors source);
     State.returnCalculations :=
       default (State.returnCalculations target) (Updates.returnCalculations source);
     State.listeners := default (State.listeners target) (Updates.listeners source);
     State.others := Updates.others source ∪ State.others target |}.

(** [setState(updates)] *)
Definition setState (updates : Updates.t) : Eff unit :=
  s ← get ;
  put (Object_assign s updates) ;;
  s ← get ;
  forEach (State.listeners s) (fun fn => call fn).

(** [subscribe(fn)]: [state.listeners.push(fn)] *)
Definition subscribe (fn : Listener) : Eff unit :=
  s ← get ;
  put (State.set_listeners (State.listeners s ++ [fn]) s).

(** Running a piece of code: the state it leaves and the calls it made. *)
Definition exec {A} (m : Eff A) (s : State.t) : State.t := snd (fst (m s)).
Definition calls {A} (m : Eff A) (s : State.t) : list Call := snd (m s).

End Store.

(** ** the update cycle of the main script *)

Module Main.
Import Calculations Validation Store.

(** The observer the main script registers. *)
Definition handleStateChange : Listener := 0%nat.

(** [switchView(view)]: besides [setState({ viewMode: view })] it writes to
    the document only. *)
Definition switchView (view : string) : Eff unit :=
  setState (Updates.of_viewMode view).

(** [handleResponsiveView()], with [window.innerWidth] as its argument. *)
Definition handleResponsiveView (viewportWidth : float) : Eff unit :=
  if viewportWidth <? 600 then
    s ← get ;
    if bool_decide (State.viewMode s = "chart"%string) then switchView "table"
    else mret tt
  else mret tt.

Section WithPlatform.
Context `{Platform}.

(** [updateCalculations()].  The [try] block cannot fail:
    [calculateRequiredReturnMetrics] is arithmetic on numbers and
    observers return normally, so the [catch] branch is never taken. *)
Definition updateCalculations : Eff unit :=
  s ← get ;
  let marketPrice := State.marketPrice s in
  let currentDividend := State.currentDividend s in
  let growthRate := State.growthRate s in
  let errors := State.errors s in
  if hasErrors errors then
    setState (Updates.of_returnCalculations None)
  else
    let calculations :=
      calculateRequiredReturnMetrics marketPrice currentDividend growthRate in
    setState (Updates.of_returnCalculations (Some calculations)).

(** The function handed to [debounce] in [setupInputListeners], for the
    input bound to [field]; [value] is [parseFloat(input.value)].  The
    calls [updateFieldError] and [updateValidationSummary] write to the
    document only. *)
Definition debouncedUpdate (field : string) (value : float) : Eff unit :=
  let error := validateField field (JsNumber value) in
  s ← get ;
  let errors := State.errors s in
  let errors :=
    if truthy error then <[field := default ""%string error]> errors
    else delete field errors in
  setState (Updates.of_field_and_errors field value errors) ;;
  if negb (hasErrors errors) then updateCalculations else mret tt.

(** The part of [init()] that touches the store: [setupResizeListener()]
    runs [handleResponsiveView()] once, then come
    [subscribe(handleStateChange)] and [updateCalculations()]. *)
Definition init (viewportWidth : float) : Eff unit :=
  handleResponsiveView viewportWidth ;;
  subscribe handleStateChange ;;
  updateCalculations.

End WithPlatform.

End Main.

(** ** the handlers the main script registers, as events *)

Module Events.
Import Calculations Validation Store Main.

(** The table [inputs] of [setupInputListeners]: element id and state field. *)
Definition inputs : list (string * string) :=
  [ ("market-price", "marketPrice");
    ("current-dividend", "currentDividend");
    ("growth-rate", "growthRate") ]%string.

(** What reaches the store after start-up: the debounced callback of an
    input element firing with the parsed content of the element, a click on
    a view button (or on the skip link, which asks for the table), and the
    delayed callback of the resize listener with the width of the window. *)
Inductive Event :=
| InputChange (field : string) (value : float)
| ViewClick (view : string)
| Resize (viewportWidth : float).

Section WithPlatform.
Context `{Platform}.

(** Only the fields of [inputs] have a listener. *)
Definition dispatch (e : Event) : Eff unit :=
  match e with
  | InputChange field value =>
      if bool_decide (field ∈ map snd inputs) then debouncedUpdate field value
      else mret tt
  | ViewClick view => switchView view
  | Resize viewportWidth => handleResponsiveView viewportWidth
  end.

(** [init()] followed by the events of a session, in order. *)
Definition session (viewportWidth : float) (events : list Event) : Eff unit :=
  init viewportWidth ;; forEach events dispatch.

End WithPlatform.

End Events.

(** ** utils: number formatting *)

(** The two formatting built-ins the module relies on, whose digits are the
    engine's: [value.toLocaleString('en-US', { minimumFractionDigits: 2,
    maximumFractionDigits: 2 })] and [value.toFixed(decimals)]. *)
Class NumberFormat := {
  toLocaleString_en_US_2 : float → string;
  toFixed : float → nat → string
}.

(** A stand-in used to run the model on concrete inputs: it prints the sign
    and the class of the number, not its digits. *)
Definition reference_format : NumberFormat :=
  {| toLocaleString_en_US_2 :=
       fun x => if is_nan x then "NaN"%string
                else if x <? 0 then "-#.##"%string else "#.##"%string;
     toFixed :=
       fun x _ => if is_nan x then "NaN"%string
                  else if x <? 0 then "-#"%string else "#"%string |}.

Module Utils.
Section WithNumberFormat.
Context `{NumberFormat}.

(** [formatCurrency(value, signed = false)] *)
Definition formatCurrency (value : float) (signed : option bool) : string :=
  let signed := default false signed in
  let absValue := abs value in
  let formatted := toLocaleString_en_US_2 absValue in
  if value <? 0 then
    if signed then "-USD " +:+ formatted else "(USD " +:+ formatted +:+ ")"
  else "USD " +:+ formatted.

(** [formatPercentage(value, decimals = 2)] *)
Definition formatPercentage (value : float) (decimals : option nat) : string :=
  let decimals := default 2%nat decimals in
  toFixed value decimals +:+ "%".

End WithNumberFormat.
End Utils.

(** ** chart: data series and keyboard focus *)

Module Chart.
Import Calculations.

(** The series [renderChart] hands to the chart library. *)
Definition labels (cashFlows : list CashFlowPoint) : list nat :=
  map year cashFlows.
Definition dividendData (cashFlows : list CashFlowPoint) : list float :=
  map dividend cashFlows.
Definition investmentData (cashFlows : list CashFlowPoint) : list float :=
  map investment cashFlows.
Definition totalData (cashFlows : list CashFlowPoint) : list float :=
  map totalCashFlow cashFlows.

(** The module variables [currentFocusIndex] and [isKeyboardMode]. *)
Record Focus := {
  currentFocusIndex : Z;
  isKeyboardMode : bool
}.

(** [renderChart] sets [currentFocusIndex = 0] and leaves the mode. *)
Definition renderChart_focus (f : Focus) : Focus :=
  {| currentFocusIndex := 0; isKeyboardMode := isKeyboardMode f |}.

(** [array[index]] for an integer index: [None] is [undefined]. *)
Definition at_index {A} (array : list A) (index : Z) : option A :=
  if (index <? 0)%Z then None else array !! Z.to_nat index.

(** The arguments of one call [announceDataPoint(cashFlow, total, _)]. *)
Record Announcement := {
  cashFlow : option CashFlowPoint;
  total : option float
}.

(** [keydownListener(e)] of [setupKeyboardNavigation], for [e.key = key]: the
    module variables after it and the announcement it makes, if any. *)
Definition keydownListener (cashFlows : list CashFlowPoint) (key : string)
    (f : Focus) : Focus * option Announcement :=
  let maxIndex := (Z.of_nat (length cashFlows) - 1)%Z in
  let newIndex := currentFocusIndex f in
  let f := {| currentFocusIndex := currentFocusIndex f; isKeyboardMode := true |} in
  let newIndex :=
    if bool_decide (key ∈ ["ArrowRight"; "ArrowDown"]%string)
    then Some (Z.min (currentFocusIndex f + 1) maxIndex)
    else if bool_decide (key ∈ ["ArrowLeft"; "ArrowUp"]%string)
    then Some (Z.max (currentFocusIndex f - 1) 0)
    else if bool_decide (key = "Home"%string) then Some 0%Z
    else if bool_decide (key = "End"%string) then Some maxIndex
    else None in
  match newIndex with
  | None => (f, None)
  | Some newIndex =>
      if bool_decide (newIndex ≠ currentFocusIndex f) then
        let f := {| currentFocusIndex := newIndex; isKeyboardMode := true |} in
        (f, Some {| cashFlow := at_index cashFlows (currentFocusIndex f);
                    total := at_index (totalData cashFlows) (currentFocusIndex f) |})
      else (f, None)
  end.

(** A run of key presses: the focus at the end and the announcements made,
    in order. *)
Fixpoint keydowns (cashFlows : list CashFlowPoint) (keys : list string)
    (f : Focus) : Focus * list Announcement :=
  match keys with
  | [] => (f, [])
  | key :: keys' =>
      let '(f1, a) := keydownListener cashFlows key f in
      let '(f2, rest) := keydowns cashFlows keys' f1 in
      (f2, match a with Some a => a :: rest | None => rest end)
  end.

End Chart.

(** ** Vocabulary of the statements *)

(** The sum of a sequence of numbers taken in order, first element first:
    the running total as the loop of [generateCashFlows] forms it. *)
Definition sum_in_order (xs : list float) : float :=
  match xs with
  | [] => 0
  | x :: xs' => fold_left PrimFloat.add xs' x
  end.

(** [SameValueZero(x, y)] of the language: [x === y], or both NaN. *)
Definition SameValueZero (x y : float) : bool :=
  (x =? y) || (is_nan x && is_nan y).

(** The same number, or two zeros whatever their signs. *)
Definition same_up_to_zero_sign (x y : float) : Prop :=
  x = y ∨ ∃ sx sy, Prim2SF x = S754_zero sx ∧ Prim2SF y = S754_zero sy.

(** A value for which the required-check of [validateField] fires. *)
Definition is_missing (v : Validation.JsValue) : bool :=
  match v with
  | Validation.JsUndefined | Validation.JsNull | Validation.JsEmptyString => true
  | Validation.JsNumber x => is_nan x
  end.

(** The object pushed by the body of the loop of [generateCashFlows] in
    year [year], when the running total before it is [cumulativeTotal]. *)
Definition pushed_point `{Platform} (currentDividend g : float) (year : nat)
    (cumulativeTotal : float) : Calculations.CashFlowPoint :=
  let dividend := currentDividend * Math_pow (1 + g) (Number_of_nat year) in
  {| Calculations.year := year;
     Calculations.dividend := dividend;
     Calculations.investment := 0;
     Calculations.totalCashFlow := dividend;
     Calculations.cumulativeCashFlow := cumulativeTotal + dividend |}.

(** The errors mapping the handler builds from the stored one and the
    verdict on the field just edited. *)
Definition errors_after (field : string) (value : float) (s : Store.State.t)
    : gmap string string :=
  let error := Validation.validateField field (Validation.JsNumber value) in
  if Validation.truthy error then <[field := default ""%string error]> (Store.State.errors s)
  else delete field (Store.State.errors s).

(** One pass of the loop of [validateAllInputs]. *)
Definition validateAllInputs_step (inputs : gmap string Validation.JsValue)
    (errors : gmap string string) (field : string) : gmap string string :=
  let error :=
    Validation.validateField field (default Validation.JsUndefined (inputs !! field)) in
  if Validation.truthy error then <[field := default ""%string error]> errors
  else errors.

(** One round of notification: every listener of [s], in order, handed [s]. *)
Definition notifications (s : Store.State.t) : list Store.Call :=
  map (fun fn => {| Store.callee := fn; Store.argument := s |})
    (Store.State.listeners s).

(** [state[field]]: [undefined] for a property the object does not have. *)
Definition state_get (s : Store.State.t) (field : string) : Validation.JsValue :=
  if bool_decide (field = "marketPrice"%string)
  then Validation.JsNumber (Store.State.marketPrice s)
  else if bool_decide (field = "currentDividend"%string)
  then Validation.JsNumber (Store.State.currentDividend s)
  else if bool_decide (field = "growthRate"%string)
  then Validation.JsNumber (Store.State.growthRate s)
  else default Validation.JsUndefined (Store.State.others s !! field).

(** The state the handler of an input leaves after its first [setState]:
    the edited field and the rebuilt errors mapping merged in. *)
Definition merged_input (field : string) (value : float) (s : Store.State.t)
    : Store.State.t :=
  Store.Object_assign s
    (Store.Updates.of_field_and_errors field value (errors_after field value s)).

(** The result [calculateRequiredReturnMetrics] gives for the inputs stored
    in [s]. *)
Definition fresh_result `{Platform} (s : Store.State.t) : Calculations.ReturnMetrics :=
  Calculations.calculateRequiredReturnMetrics (Store.State.marketPrice s)
    (Store.State.currentDividend s) (Store.State.growthRate s).

(** The errors mapping says of every field what [validateField] says of the
    value stored for it. *)
Definition errors_mirror_inputs (s : Store.State.t) : Prop :=
  ∀ field : string,
    Store.State.errors s !! field
    = Validation.validateField field (state_get s field).


(** What holds of the store throughout a session. *)
Definition session_invariant `{Platform} (s : Store.State.t) : Prop :=
  errors_mirror_inputs s
  ∧ (Validation.hasErrors (Store.State.errors s) = false →
     Store.State.returnCalculations s = Some (fresh_result s))
  ∧ Store.State.listeners s = [Main.handleStateChange]
  ∧ Store.State.returnCalculations s ≠ None.

(** * Properties *)

(** ** Facts on binary64 comparison and product *)

Section FloatFacts.

Lemma SFcompare_antisym (x y : spec_float) :
  SFcompare y x = option_map CompOpp (SFcompare x y).
Proof.
  destruct x as [sx|sx| |sx mx ex], y as [sy|sy| |sy my ey]; simpl;
    try reflexivity; try (destruct sx; reflexivity);
    try (destruct sy; reflexivity); try (destruct sx, sy; reflexivity).
  change (PosDef.Pos.compare_cont Eq my mx) with (Pos.compare my mx).
  change (PosDef.Pos.compare_cont Eq mx my) with (Pos.compare mx my).
  rewrite (Z.compare_antisym ex ey), (Pos.compare_antisym mx my).
  destruct sx, sy, (ex ?= ey)%Z, (mx ?= my)%positive; reflexivity.
Qed.

Lemma SFltb_irrefl (x : spec_float) : SFltb x x = false.
Proof.
  unfold SFltb. destruct x as [s|s| |s m e]; simpl; try reflexivity.
  - destruct s; reflexivity.
  - change (PosDef.Pos.compare_cont Eq m m) with (Pos.compare m m).
    rewrite Z.compare_refl, Pos.compare_refl. destruct s; reflexivity.
Qed.

Lemma SFcompare_None (x y : spec_float) :
  SFcompare x y = None ↔ x = S754_nan ∨ y = S754_nan.
Proof.
  destruct x as [sx|sx| |sx mx ex], y as [sy|sy| |sy my ey]; simpl;
    split; intros Hc; try reflexivity; try discriminate;
    try (left; reflexivity); try (right; reflexivity);
    destruct Hc; discriminate.
Qed.

Lemma SFeqb_refl_or_nan (x : spec_float) :
  SFeqb x x = match x with S754_nan => false | _ => true end.
Proof.
  unfold SFeqb. destruct x as [s|s| |s m e]; simpl; try reflexivity.
  - destruct s; reflexivity.
  - change (PosDef.Pos.compare_cont Eq m m) with (Pos.compare m m).
    rewrite Z.compare_refl, Pos.compare_refl. destruct s; reflexivity.
Qed.

Lemma is_nan_Prim2SF (x : float) : is_nan x = true ↔ Prim2SF x = S754_nan.
Proof.
  unfold is_nan. rewrite FloatAxioms.eqb_spec, SFeqb_refl_or_nan.
  destruct (Prim2SF x); simpl; split; intros Hx;
    try reflexivity; discriminate.
Qed.

(** [a < b] excludes [b <= a] ... *)
Lemma ltb_true_leb_false (a b : float) : (a <? b) = true → (b <=? a) = false.
Proof.
  rewrite FloatAxioms.ltb_spec, FloatAxioms.leb_spec. unfold SFltb, SFleb.
  rewrite (SFcompare_antisym (Prim2SF a) (Prim2SF b)).
  destruct (SFcompare (Prim2SF a) (Prim2SF b)) as [[]|]; simpl; congruence.
Qed.

(** ... and the other way round. *)
Lemma leb_true_ltb_false (a b : float) : (b <=? a) = true → (a <? b) = false.
Proof.
  intros Hle. destruct (a <? b) eqn:Hlt; [|reflexivity].
  apply ltb_true_leb_false in Hlt. congruence.
Qed.

(** Between two numbers neither of which is NaN, [¬ a < b] is [b <= a]. *)
Lemma ltb_false_leb_true (a b : float) :
  is_nan a = false → is_nan b = false → (a <? b) = false → (b <=? a) = true.
Proof.
  intros Ha Hb.
  rewrite FloatAxioms.ltb_spec, FloatAxioms.leb_spec. unfold SFltb, SFleb.
  rewrite (SFcompare_antisym (Prim2SF a) (Prim2SF b)).
  destruct (SFcompare (Prim2SF a) (Prim2SF b)) as [[]|] eqn:Hc; simpl;
    try congruence.
  apply SFcompare_None in Hc as [Hc|Hc]; apply is_nan_Prim2SF in Hc; congruence.
Qed.

(** A true comparison has no NaN operand. *)
Lemma leb_true_not_nan (a b : float) :
  (a <=? b) = true → is_nan a = false ∧ is_nan b = false.
Proof.
  rewrite FloatAxioms.leb_spec. unfold SFleb. intros Hle.
  split.
  - destruct (is_nan a) eqn:Hn; [|reflexivity].
    apply is_nan_Prim2SF in Hn. rewrite Hn in Hle. discriminate.
  - destruct (is_nan b) eqn:Hn; [|reflexivity].
    apply is_nan_Prim2SF in Hn. rewrite Hn in Hle.
    destruct (Prim2SF a); discriminate.
Qed.

Lemma Prim2SF_inj (x y : float) : Prim2SF x = Prim2SF y → x = y.
Proof.
  intros E. rewrite <- (SF2Prim_Prim2SF x), <- (SF2Prim_Prim2SF y), E.
  reflexivity.
Qed.

Lemma SFmul_comm prec emax (x y : spec_float) :
  SFmul prec emax x y = SFmul prec emax y x.
Proof.
  destruct x as [sx|sx| |sx mx ex], y as [sy|sy| |sy my ey]; simpl;
    try reflexivity; try (rewrite xorb_comm; reflexivity).
  rewrite xorb_comm, Pos.mul_comm, Z.add_comm. reflexivity.
Qed.

Lemma float_mul_comm (x y : float) : x * y = y * x.
Proof.
  apply Prim2SF_inj. rewrite !FloatAxioms.mul_spec. apply SFmul_comm.
Qed.

(** With a zero numerator the quotient is a zero or NaN, and adding [g] to
    it gives nothing above [g]. *)
Lemma zero_numerator_not_below (a m g : float) :
  (g <? (0 * a) / m + g) = false.
Proof.
  rewrite FloatAxioms.ltb_spec, FloatAxioms.add_spec, FloatAxioms.div_spec,
    FloatAxioms.mul_spec.
  change (Prim2SF 0) with (S754_zero false).
  unfold SF64add, SF64div, SF64mul.
  destruct (Prim2SF a) as [sa|sa| |sa ma ea], (Prim2SF m) as [sm|sm| |sm mm em];
    simpl; destruct (Prim2SF g) as [sg|sg| |sg mg eg]; try reflexivity;
    try apply SFltb_irrefl;
    try (destruct sg; reflexivity);
    try (destruct sa, sm, sg; reflexivity).
Qed.

Lemma same_up_to_zero_sign_SameValueZero (x y : float) :
  same_up_to_zero_sign x y → SameValueZero x y = true.
Proof.
  unfold SameValueZero, is_nan. intros [<-|(sx & sy & Hx & Hy)].
  - destruct (x =? x); reflexivity.
  - rewrite FloatAxioms.eqb_spec, Hx, Hy. reflexivity.
Qed.

(** Adding the same number to both keeps them the same up to the sign of
    zero. *)
Lemma same_up_to_zero_sign_add (a a' d : float) :
  same_up_to_zero_sign a a' → same_up_to_zero_sign (a + d) (a' + d).
Proof.
  intros [<-|(sx & sy & Hx & Hy)]; [left; reflexivity|].
  destruct (Prim2SF d) as [sd|sd| |sd md ed] eqn:Hd.
  - right. exists (if sx then if sd then true else false else false),
                  (if sy then if sd then true else false else false).
    rewrite !FloatAxioms.add_spec, Hx, Hy, Hd. unfold SF64add. simpl.
    destruct sx, sy, sd; split; reflexivity.
  - left. apply Prim2SF_inj.
    rewrite !FloatAxioms.add_spec, Hx, Hy, Hd. reflexivity.
  - left. apply Prim2SF_inj.
    rewrite !FloatAxioms.add_spec, Hx, Hy, Hd. reflexivity.
  - left. apply Prim2SF_inj.
    rewrite !FloatAxioms.add_spec, Hx, Hy, Hd. reflexivity.
Qed.

Lemma same_up_to_zero_sign_fold (l : list float) (a a' : float) :
  same_up_to_zero_sign a a' →
  same_up_to_zero_sign (fold_left PrimFloat.add l a) (fold_left PrimFloat.add l a').
Proof.
  revert a a'. induction l as [|d l IH]; intros a a' Ha; [exact Ha|].
  simpl. apply IH, same_up_to_zero_sign_add, Ha.
Qed.

Lemma zero_add_same (x : float) : same_up_to_zero_sign x (0 + x).
Proof.
  destruct (Prim2SF x) as [sx|sx| |sx mx ex] eqn:Hx.
  - right. exists sx, (if sx then false else false).
    split; [exact Hx|]. rewrite FloatAxioms.add_spec, Hx.
    change (Prim2SF 0) with (S754_zero false). destruct sx; reflexivity.
  - left. apply Prim2SF_inj. rewrite FloatAxioms.add_spec, Hx. reflexivity.
  - left. apply Prim2SF_inj. rewrite FloatAxioms.add_spec, Hx. reflexivity.
  - left. apply Prim2SF_inj. rewrite FloatAxioms.add_spec, Hx. reflexivity.
Qed.

(** Summing from 0, as a [reduce] with initial value 0 does, gives the same
    number as summing from the first element. *)
Lemma sum_in_order_from_zero (xs : list float) :
  SameValueZero (sum_in_order xs) (fold_left PrimFloat.add xs 0) = true.
Proof.
  apply same_up_to_zero_sign_SameValueZero.
  destruct xs as [|x xs]; [left; reflexivity|].
  simpl. apply same_up_to_zero_sign_fold, zero_add_same.
Qed.

End FloatFacts.

(** ** The required-return calculation *)

Section RequiredReturn.
Import Calculations Validation.

(** C1.  For every input triple, [calculateRequiredReturn] returns
    [g = growthRate / 100], [d1 = currentDividend * (1 + g)],
    [dividendYieldDecimal = d1 / marketPrice],
    [requiredReturnDecimal = dividendYieldDecimal + g], and the two
    percentage fields are 100 times their decimal counterparts; for
    [marketPrice = 50], [currentDividend = 2], [growthRate = 5] the
    returned [requiredReturn] is within 0.1 of 9.2. *)
Theorem calculateRequiredReturn_formula :
  (∀ marketPrice currentDividend growthRate : float,
     let r := calculateRequiredReturn marketPrice currentDividend growthRate in
     let g := growthRateDecimal r in
     g = growthRate / 100
     ∧ d1 r = currentDividend * (1 + g)
     ∧ dividendYieldDecimal r = d1 r / marketPrice
     ∧ requiredReturnDecimal r = dividendYieldDecimal r + g
     ∧ requiredReturn r = 100 * requiredReturnDecimal r
     ∧ dividendYield r = 100 * dividendYieldDecimal r)
  ∧ (abs (requiredReturn (calculateRequiredReturn 50 2 5) - 9.2) <=? 0.1) = true.
Proof.
  split.
  - intros marketPrice currentDividend growthRate r g.
    repeat split; try reflexivity; subst r g; cbn [requiredReturn
      requiredReturnDecimal dividendYield dividendYieldDecimal
      calculateRequiredReturn]; apply float_mul_comm.
  - vm_compute. reflexivity.
Qed.

(** C6.  [isValid] is true iff [requiredReturnDecimal > 0] and
    [growthRateDecimal < requiredReturnDecimal]; in particular it is false
    whenever [growthRateDecimal >= requiredReturnDecimal]. *)
Theorem isValid_iff (marketPrice currentDividend growthRate : float) :
  let r := calculateRequiredReturn marketPrice currentDividend growthRate in
  (isValid r = true ↔
     (requiredReturnDecimal r >? 0) = true
     ∧ (growthRateDecimal r <? requiredReturnDecimal r) = true)
  ∧ ((growthRateDecimal r >=? requiredReturnDecimal r) = true →
     isValid r = false).
Proof.
  intros r. split.
  - subst r. cbn [isValid requiredReturnDecimal growthRateDecimal
      calculateRequiredReturn]. apply andb_true_iff.
  - intros Hge. subst r. cbn [isValid requiredReturnDecimal growthRateDecimal
      calculateRequiredReturn] in *.
    rewrite (leb_true_ltb_false _ _ Hge). apply andb_false_r.
Qed.

(** The boundary of C6 is met: a stock that pays nothing has
    [growthRateDecimal >= requiredReturnDecimal]. *)
Lemma isValid_iff_witness :
  isValid (calculateRequiredReturn 50 0 5) = false.
Proof.
  apply (isValid_iff 50 0 5). vm_compute. reflexivity.
Defined.

(** C9.  [calculateGordonPrice(d1, r, g)] throws iff [g >= r]; when
    [g < r] it returns [d1 / (r - g)].  (It is a function of its three
    arguments only: the store is not among them.) *)
Theorem calculateGordonPrice_throws_iff (d1 r g : float) :
  ((∃ message, calculateGordonPrice d1 r g = inl message) ↔ (g >=? r) = true)
  ∧ ((g <? r) = true → calculateGordonPrice d1 r g = inr (d1 / (r - g))).
Proof.
  unfold calculateGordonPrice. split.
  - destruct (g >=? r); split.
    + reflexivity.
    + intros _. eexists. reflexivity.
    + intros [message Hm]. discriminate.
    + discriminate.
  - intros Hlt. rewrite (ltb_true_leb_false _ _ Hlt). reflexivity.
Qed.

Lemma calculateGordonPrice_throws_iff_witness :
  calculateGordonPrice 2.1 0.092 0.05 = inr (2.1 / (0.092 - 0.05)).
Proof.
  apply (calculateGordonPrice_throws_iff 2.1 0.092 0.05). vm_compute. reflexivity.
Defined.

(** C10.  With [currentDividend = 0], [calculateRequiredReturn] returns
    [isValid = false] for every market price and growth rate (the strict
    comparison [g < requiredReturn] fails), although [0] passes the
    validation of [currentDividend], whose rule has the minimum 0. *)
Theorem zero_dividend_is_invalid :
  (∀ marketPrice growthRate : float,
     let r := calculateRequiredReturn marketPrice 0 growthRate in
     (growthRateDecimal r <? requiredReturnDecimal r) = false
     ∧ isValid r = false)
  ∧ Rule.min <$> rules_of VALIDATION_RULES "currentDividend" = Some (Some 0%Z)
  ∧ validateField "currentDividend" (JsNumber 0) = None.
Proof.
  refine (conj _ (conj _ _)).
  - intros marketPrice growthRate r. subst r.
    cbn [isValid growthRateDecimal requiredReturnDecimal calculateRequiredReturn].
    rewrite zero_numerator_not_below. split; [reflexivity | apply andb_false_r].
  - reflexivity.
  - vm_compute. reflexivity.
Qed.

End RequiredReturn.

(** ** The cash-flow projection *)

Section CashFlows.
Import Calculations.
Context `{Platform}.

(** The loop only appends to the array it is given. *)
Lemma cashFlowsLoop_app cd g remaining year cumulativeTotal acc :
  cashFlowsLoop cd g remaining year cumulativeTotal acc
  = acc ++ cashFlowsLoop cd g remaining year cumulativeTotal [].
Proof.
  revert year cumulativeTotal acc.
  induction remaining as [|n IH]; intros year cumulativeTotal acc; simpl.
  - now rewrite app_nil_r.
  - rewrite IH. rewrite (IH _ _ [_]). now rewrite <- app_assoc.
Qed.

Lemma cashFlowsLoop_cons cd g n year cumulativeTotal :
  cashFlowsLoop cd g (S n) year cumulativeTotal []
  = pushed_point cd g year cumulativeTotal
    :: cashFlowsLoop cd g n (S year)
         (cumulativeCashFlow (pushed_point cd g year cumulativeTotal)) [].
Proof. simpl. now rewrite cashFlowsLoop_app. Qed.

Lemma cashFlowsLoop_length cd g n year cumulativeTotal :
  length (cashFlowsLoop cd g n year cumulativeTotal []) = n.
Proof.
  revert year cumulativeTotal.
  induction n as [|n IH]; intros year cumulativeTotal; [reflexivity|].
  rewrite cashFlowsLoop_cons. simpl. now rewrite IH.
Qed.

Lemma cashFlowsLoop_years cd g n year cumulativeTotal :
  map Calculations.year (cashFlowsLoop cd g n year cumulativeTotal []) = seq year n.
Proof.
  revert year cumulativeTotal.
  induction n as [|n IH]; intros year cumulativeTotal; [reflexivity|].
  rewrite cashFlowsLoop_cons. simpl. now rewrite IH.
Qed.

(** The [i]-th point pushed by the loop is the one of year [year + i]. *)
Lemma cashFlowsLoop_lookup cd g n year cumulativeTotal i :
  (i < n)%nat →
  ∃ p, cashFlowsLoop cd g n year cumulativeTotal [] !! i = Some p
       ∧ Calculations.year p = (year + i)%nat
       ∧ dividend p = cd * Math_pow (1 + g) (Number_of_nat (year + i))
       ∧ investment p = 0
       ∧ totalCashFlow p = dividend p.
Proof.
  revert year cumulativeTotal i.
  induction n as [|n IH]; intros year cumulativeTotal i Hi; [lia|].
  rewrite cashFlowsLoop_cons. destruct i as [|i].
  - exists (pushed_point cd g year cumulativeTotal). rewrite Nat.add_0_r.
    repeat split; reflexivity.
  - destruct (IH (S year) (cumulativeCashFlow (pushed_point cd g year cumulativeTotal)) i)
      as (p & Hp & Hy & Hd & Hrest); [lia|].
    exists p. replace (year + S i)%nat with (S year + i)%nat by lia.
    repeat split; assumption || apply Hrest.
Qed.

(** The running total: each pushed point carries the total the loop started
    with plus, in order, the cash flows pushed so far. *)
Lemma cashFlowsLoop_cumulative cd g n year cumulativeTotal i p :
  cashFlowsLoop cd g n year cumulativeTotal [] !! i = Some p →
  cumulativeCashFlow p
  = fold_left PrimFloat.add
      (map totalCashFlow (take (S i) (cashFlowsLoop cd g n year cumulativeTotal [])))
      cumulativeTotal.
Proof.
  revert year cumulativeTotal i.
  induction n as [|n IH]; intros year cumulativeTotal i; [discriminate|].
  rewrite cashFlowsLoop_cons. destruct i as [|i].
  - intros [= <-]. reflexivity.
  - intros Hp. apply IH in Hp. rewrite Hp. reflexivity.
Qed.

(** The array returned is the year-0 point followed by what the loop pushes. *)
Lemma generateCashFlows_cons marketPrice cd g years :
  generateCashFlows marketPrice cd g years
  = {| year := 0; dividend := 0; investment := - marketPrice;
       totalCashFlow := - marketPrice; cumulativeCashFlow := - marketPrice |}
    :: cashFlowsLoop cd g (default 10%nat years) 1 (- marketPrice) [].
Proof. unfold generateCashFlows. now rewrite cashFlowsLoop_app. Qed.

(** C3.  For every input and every index [N] into the returned sequence, the
    [cumulativeCashFlow] of the point at index [N] is the sum of the
    [totalCashFlow] values of the points at indices [0] through [N]: the
    very value of the sum taken in order from the first of them, and the
    same number ([SameValueZero]) as the sum taken in order from 0.  There
    is such a point for every [N] up to [years]. *)
Theorem cumulativeCashFlow_is_running_sum
    (marketPrice currentDividend g : float) (years : option nat) (N : nat) :
  let flows := generateCashFlows marketPrice currentDividend g years in
  ((N ≤ default 10%nat years)%nat → is_Some (flows !! N))
  ∧ (∀ p, flows !! N = Some p →
       cumulativeCashFlow p
       = sum_in_order (map totalCashFlow (take (S N) flows))
       ∧ SameValueZero (cumulativeCashFlow p)
           (fold_left PrimFloat.add (map totalCashFlow (take (S N) flows)) 0)
         = true).
Proof.
  intros flows.
  assert (Hsum : ∀ p, flows !! N = Some p →
            cumulativeCashFlow p
            = sum_in_order (map totalCashFlow (take (S N) flows))).
  { subst flows. rewrite generateCashFlows_cons. intros p.
    destruct N as [|i].
    - intros [= <-]. reflexivity.
    - intros Hp. apply cashFlowsLoop_cumulative in Hp. rewrite Hp. reflexivity. }
  split.
  - intros HN. apply lookup_lt_is_Some. subst flows.
    rewrite generateCashFlows_cons. cbn [length].
    rewrite cashFlowsLoop_length. lia.
  - intros p Hp. split; [exact (Hsum p Hp)|].
    rewrite (Hsum p Hp). apply sum_in_order_from_zero.
Qed.

(** C4.  For a non-negative integer [years], [generateCashFlows] returns
    exactly [years + 1] points whose [year] fields are [0 .. years] in
    order; the year-0 point is [{dividend: 0, investment: -marketPrice,
    totalCashFlow: -marketPrice, cumulativeCashFlow: -marketPrice}]; for
    each [t] in [1 .. years] the point has
    [dividend = currentDividend * (1 + g)^t], [investment = 0] and
    [totalCashFlow] equal to that dividend; with the default [years] the
    sequence has 11 points. *)
Theorem generateCashFlows_points
    (marketPrice currentDividend g : float) (years : nat) :
  let flows := generateCashFlows marketPrice currentDividend g (Some years) in
  length flows = S years
  ∧ map Calculations.year flows = seq 0 (S years)
  ∧ flows !! 0%nat
    = Some {| year := 0; dividend := 0; investment := - marketPrice;
              totalCashFlow := - marketPrice;
              cumulativeCashFlow := - marketPrice |}
  ∧ (∀ t, (1 ≤ t ≤ years)%nat →
       ∃ p, flows !! t = Some p
            ∧ Calculations.year p = t
            ∧ dividend p
              = currentDividend * Math_pow (1 + g) (Number_of_nat t)
            ∧ investment p = 0
            ∧ totalCashFlow p = dividend p)
  ∧ length (generateCashFlows marketPrice currentDividend g None) = 11%nat.
Proof.
  intros flows. subst flows. rewrite !generateCashFlows_cons. simpl default.
  refine (conj _ (conj _ (conj _ (conj _ _)))).
  - cbn [length]. now rewrite cashFlowsLoop_length.
  - cbn [map year]. now rewrite cashFlowsLoop_years.
  - reflexivity.
  - intros t [Ht1 Ht2]. destruct t as [|i]; [lia|].
    destruct (cashFlowsLoop_lookup currentDividend g years 1 (- marketPrice) i)
      as (p & Hp & Hy & Hd & Hrest); [lia|].
    exists p. repeat split; assumption || apply Hrest.
  - cbn [length]. now rewrite cashFlowsLoop_length.
Qed.

(** C5.  On a platform where raising to the power 1 returns the base, the
    dividend of the cash-flow point at year 1 in the result of
    [calculateRequiredReturnMetrics] is the [d1] of the required-return
    calculation; the same holds of [generateCashFlows] for every
    [years >= 1]. *)
Theorem year_1_dividend_is_d1
    (Math_pow_1 : ∀ x : float, Math_pow x 1 = x)
    (marketPrice currentDividend growthRate : float) :
  let metrics :=
    calculateRequiredReturnMetrics marketPrice currentDividend growthRate in
  (∃ p, cashFlows metrics !! 1%nat = Some p
        ∧ Calculations.year p = 1%nat
        ∧ dividend p = d1 metrics)
  ∧ (∀ years, (1 ≤ years)%nat →
       ∃ p, generateCashFlows marketPrice currentDividend
              (growthRateDecimal
                 (calculateRequiredReturn marketPrice currentDividend growthRate))
              (Some years) !! 1%nat = Some p
            ∧ Calculations.year p = 1%nat
            ∧ dividend p
              = d1 (calculateRequiredReturn marketPrice currentDividend growthRate)).
Proof.
  assert (Hgen : ∀ years, (1 ≤ years)%nat →
    ∃ p, generateCashFlows marketPrice currentDividend
           (growthRateDecimal
              (calculateRequiredReturn marketPrice currentDividend growthRate))
           (Some years) !! 1%nat = Some p
         ∧ Calculations.year p = 1%nat
         ∧ dividend p
           = d1 (calculateRequiredReturn marketPrice currentDividend growthRate)).
  { intros years Hy. rewrite generateCashFlows_cons. simpl default.
    destruct (cashFlowsLoop_lookup currentDividend
                (growthRateDecimal
                   (calculateRequiredReturn marketPrice currentDividend growthRate))
                years 1 (- marketPrice) 0) as (p & Hp & Hyear & Hd & _); [lia|].
    exists p. repeat split; try assumption.
    rewrite Hd. change (Number_of_nat (1 + 0)) with 1. rewrite Math_pow_1.
    reflexivity. }
  intros metrics. split; [|exact Hgen].
  apply (Hgen 10%nat). lia.
Qed.

End CashFlows.

Section CashFlowsOnReferencePlatform.
Import Calculations.

(** C3 at work: a three-year projection on the reference platform. *)
Lemma cumulativeCashFlow_is_running_sum_witness :
  ∃ p,
    generateCashFlows (H := reference_platform) 50 2 0.05 (Some 3%nat) !! 2%nat
    = Some p
    ∧ cumulativeCashFlow p
      = sum_in_order
          (map totalCashFlow
             (take 3 (generateCashFlows (H := reference_platform) 50 2 0.05
                        (Some 3%nat)))).
Proof.
  destruct (@cumulativeCashFlow_is_running_sum reference_platform 50 2 0.05
              (Some 3%nat) 2%nat) as [Hsome Hsum].
  destruct Hsome as [p Hp]; [simpl; lia|].
  exists p. split; [exact Hp | exact (proj1 (Hsum p Hp))].
Defined.

(** C4 at work: year 2 of a three-year projection. *)
Lemma generateCashFlows_points_witness :
  ∃ p,
    generateCashFlows (H := reference_platform) 50 2 0.05 (Some 3%nat) !! 2%nat
    = Some p
    ∧ year p = 2%nat
    ∧ dividend p = 2 * pow_iter 64 (1 + 0.05) (Number_of_nat 2)
    ∧ investment p = 0
    ∧ totalCashFlow p = dividend p.
Proof.
  destruct (@generateCashFlows_points reference_platform 50 2 0.05 3%nat)
    as (_ & _ & _ & Hpts & _).
  apply (Hpts 2%nat). lia.
Defined.

(** C5 at work: the reference platform returns the base for the power 1. *)
Lemma year_1_dividend_is_d1_witness :
  ∃ p,
    cashFlows
      (calculateRequiredReturnMetrics (H := reference_platform) 50 2 5) !! 1%nat
    = Some p
    ∧ year p = 1%nat
    ∧ dividend p
      = d1
          (calculateRequiredReturnMetrics (H := reference_platform) 50 2 5).
Proof.
  exact (proj1 (@year_1_dividend_is_d1 reference_platform (fun x => eq_refl) 50 2 5)).
Defined.

End CashFlowsOnReferencePlatform.

(** ** Validation *)

Section FieldValidation.
Import Validation.

(** Every rule of the table is a required one with both bounds written. *)
Lemma VALIDATION_RULES_shape field rules :
  rules_of VALIDATION_RULES field = Some rules →
  Rule.required rules = true
  ∧ ∃ lo hi, Rule.min rules = Some lo ∧ Rule.max rules = Some hi
             ∧ is_nan (Number_of_Z lo) = false
             ∧ is_nan (Number_of_Z hi) = false.
Proof.
  unfold VALIDATION_RULES. cbn [rules_of].
  repeat case_bool_decide; intros [= <-]; (split; [reflexivity|]);
    eexists _, _; repeat split; vm_compute; reflexivity.
Qed.

(** On a number, a required rule with both bounds checks in this order:
    NaN, below the minimum, above the maximum. *)
Lemma validateField_number field rules lo hi x :
  rules_of VALIDATION_RULES field = Some rules →
  Rule.required rules = true →
  Rule.min rules = Some lo → Rule.max rules = Some hi →
  validateField field (JsNumber x)
  = if is_nan x then Some (required_message rules)
    else if x <? Number_of_Z lo then Some (range_message rules)
    else if x >? Number_of_Z hi then Some (range_message rules)
    else None.
Proof.
  intros Hrules Hreq Hmin Hmax. unfold validateField.
  rewrite Hrules, Hreq, Hmin, Hmax. reflexivity.
Qed.

(** Inside the closed interval, and only there, none of the three checks
    fires. *)
Lemma within_bounds_iff (x lo hi : float) :
  is_nan lo = false → is_nan hi = false →
  (is_nan x = false ∧ (x <? lo) = false ∧ (x >? hi) = false)
  ↔ ((lo <=? x) = true ∧ (x <=? hi) = true).
Proof.
  intros Hlo Hhi. split.
  - intros (Hx & Hbelow & Habove). split.
    + apply ltb_false_leb_true; assumption.
    + apply ltb_false_leb_true; assumption.
  - intros [Hge Hle]. repeat split.
    + apply (leb_true_not_nan _ _ Hge).
    + apply leb_true_ltb_false, Hge.
    + apply leb_true_ltb_false, Hle.
Qed.

(** C8.  [validateField] checks required before range and its bounds are
    inclusive: for [marketPrice], 0 is refused, 1 and 500 are accepted and
    500.01 is refused with the range message; a missing, null, empty or NaN
    value of a required field gets the required message, whatever the range
    check would say; and a number is accepted exactly when it lies in
    [[min, max]]. *)
Theorem validateField_required_then_inclusive_range :
  validateField "marketPrice" (JsNumber 0)
  = Some "Market price must be between USD 1 and USD 500"%string
  ∧ validateField "marketPrice" (JsNumber 1) = None
  ∧ validateField "marketPrice" (JsNumber 500) = None
  ∧ validateField "marketPrice" (JsNumber 500.01)
    = Some "Market price must be between USD 1 and USD 500"%string
  ∧ (∀ field rules value,
       rules_of VALIDATION_RULES field = Some rules →
       Rule.required rules = true →
       is_missing value = true →
       validateField field value = Some (Rule.label rules +:+ " is required")
       ∧ Rule.label rules +:+ " is required" ≠ range_message rules)
  ∧ (∀ field rules lo hi x,
       rules_of VALIDATION_RULES field = Some rules →
       Rule.min rules = Some lo → Rule.max rules = Some hi →
       validateField field (JsNumber x) = None
       ↔ (Number_of_Z lo <=? x) = true ∧ (x <=? Number_of_Z hi) = true).
Proof.
  refine (conj _ (conj _ (conj _ (conj _ (conj _ _)))));
    try (vm_compute; reflexivity).
  - intros field rules value Hrules Hreq Hmissing. split.
    + unfold validateField. rewrite Hrules, Hreq.
      destruct value as [| | |x]; try reflexivity.
      simpl in Hmissing. unfold isNaN. simpl. rewrite Hmissing. reflexivity.
    + revert Hrules. unfold VALIDATION_RULES. cbn [rules_of].
      repeat case_bool_decide; intros [= <-]; vm_compute; discriminate.
  - intros field rules lo hi x Hrules Hmin Hmax.
    destruct (VALIDATION_RULES_shape _ _ Hrules)
      as (Hreq & lo' & hi' & Hmin' & Hmax' & Hlo & Hhi).
    assert (lo' = lo) as -> by congruence.
    assert (hi' = hi) as -> by congruence.
    rewrite (validateField_number _ _ _ _ x Hrules Hreq Hmin Hmax).
    rewrite <- (within_bounds_iff x _ _ Hlo Hhi).
    destruct (is_nan x), (x <? Number_of_Z lo), (x >? Number_of_Z hi);
      split; try discriminate; try (intros (? & ? & ?); discriminate);
      repeat split; reflexivity.
Qed.

(** C8 at work: the required check on [growthRate], and the bounds of
    [currentDividend]. *)
Lemma validateField_required_then_inclusive_range_witness :
  validateField "growthRate" (JsNumber nan) = Some "Growth rate is required"%string
  ∧ validateField "currentDividend" (JsNumber 50) = None.
Proof.
  destruct validateField_required_then_inclusive_range
    as (_ & _ & _ & _ & Hrequired & Hrange).
  split.
  - apply (Hrequired "growthRate"%string
             {| Rule.min := Some 0%Z; Rule.max := Some 25%Z;
                Rule.required := true; Rule.label := "Growth rate";
                Rule.prefix := None; Rule.unit := Some "%"%string |}
             (JsNumber nan)); reflexivity.
  - apply (Hrange "currentDividend"%string
             {| Rule.min := Some 0%Z; Rule.max := Some 50%Z;
                Rule.required := true; Rule.label := "Current dividend";
                Rule.prefix := Some "USD"%string; Rule.unit := None |}
             0%Z 50%Z 50); try reflexivity.
    split; vm_compute; reflexivity.
Defined.

End FieldValidation.

(** ** The store *)

Section StoreNotification.
Import Validation Store.

(** Calling each observer of a list hands every one of them the same state
    and leaves it as it is. *)
Lemma forEach_call (fns : list Listener) (s : State.t) :
  forEach fns (fun fn => call fn) s
  = (tt, s, map (fun fn => {| callee := fn; argument := s |}) fns).
Proof.
  induction fns as [|fn fns IH]; [reflexivity|].
  cbn [forEach map]. unfold mbind, Eff_bind, call at 1.
  rewrite IH. reflexivity.
Qed.

(** [setState] in one step. *)
Lemma setState_run (updates : Updates.t) (s : State.t) :
  setState updates s
  = (tt, Object_assign s updates,
     map (fun fn => {| callee := fn; argument := Object_assign s updates |})
       (State.listeners (Object_assign s updates))).
Proof.
  unfold setState, mbind, Eff_bind, get, put. rewrite forEach_call. reflexivity.
Qed.

Lemma setState_exec (updates : Updates.t) (s : State.t) :
  exec (setState updates) s = Object_assign s updates.
Proof. unfold exec. now rewrite setState_run. Qed.

Lemma setState_calls (updates : Updates.t) (s : State.t) :
  calls (setState updates) s
  = map (fun fn => {| callee := fn; argument := Object_assign s updates |})
      (State.listeners (Object_assign s updates)).
Proof. unfold calls. now rewrite setState_run. Qed.

(** [subscribe] appends to [listeners], touches nothing else and calls
    nobody. *)
Lemma subscribe_many (fns : list Listener) (s : State.t) :
  exec (forEach fns subscribe) s
  = State.set_listeners (State.listeners s ++ fns) s
  ∧ calls (forEach fns subscribe) s = [].
Proof.
  revert s. induction fns as [|fn fns IH]; intros s.
  - unfold exec, calls. cbn. rewrite app_nil_r. destruct s. split; reflexivity.
  - unfold exec, calls in *. cbn [forEach]. unfold mbind, Eff_bind.
    unfold subscribe at 1 3. unfold mbind, Eff_bind, get, put.
    specialize (IH (State.set_listeners (State.listeners s ++ [fn]) s)).
    destruct (forEach fns subscribe _) as [[[] s1] calls1].
    cbn [fst snd app] in *. destruct IH as [-> ->].
    unfold State.set_listeners. cbn. rewrite <- app_assoc.
    split; reflexivity.
Qed.

(** C7.  [setState] merges the fields the update names into the state and
    leaves the others as they were; then it calls every registered observer
    exactly once, in registration order, each with the full updated state.
    The observers called are those of the updated state: the ones
    registered before, in the order of their [subscribe] calls, unless the
    update names [listeners] itself.  After subscribing two observers,
    [setState({x: 1})] calls both, in order, with a state holding [x: 1]. *)
Theorem setState_merges_then_notifies :
  (∀ (fns : list Listener) (updates : Updates.t) (s0 : State.t),
     let s := exec (forEach fns subscribe) s0 in
     let s' := exec (setState updates) s in
     (State.marketPrice s' = default (State.marketPrice s) (Updates.marketPrice updates)
      ∧ State.currentDividend s'
        = default (State.currentDividend s) (Updates.currentDividend updates)
      ∧ State.growthRate s' = default (State.growthRate s) (Updates.growthRate updates)
      ∧ State.viewMode s' = default (State.viewMode s) (Updates.viewMode updates)
      ∧ State.errors s' = default (State.errors s) (Updates.errors updates)
      ∧ State.returnCalculations s'
        = default (State.returnCalculations s) (Updates.returnCalculations updates)
      ∧ State.listeners s' = default (State.listeners s) (Updates.listeners updates)
      ∧ ∀ key : string,
          State.others s' !! key
          = match Updates.others updates !! key with
            | Some v => Some v
            | None => State.others s !! key
            end)
     ∧ calls (setState updates) s
       = map (fun fn => {| callee := fn; argument := s' |}) (State.listeners s')
     ∧ (Updates.listeners updates = None →
        calls (setState updates) s
        = map (fun fn => {| callee := fn; argument := s' |})
            (State.listeners s0 ++ fns)))
  ∧ (∀ fn1 fn2 : Listener,
       let program :=
         subscribe fn1 ;; subscribe fn2 ;;
         setState (Updates.of_other "x" (JsNumber 1)) in
       let s' := exec program state in
       calls program state
       = [ {| callee := fn1; argument := s' |};
           {| callee := fn2; argument := s' |} ]
       ∧ State.others s' !! "x"%string = Some (JsNumber 1)).
Proof.
  split.
  - intros fns updates s0 s s'. subst s'.
    rewrite setState_exec, setState_calls.
    refine (conj _ (conj _ _)).
    + repeat split; try reflexivity.
      intros key. cbn [Object_assign State.others].
      rewrite lookup_union. destruct (Updates.others updates !! key) as [v|].
      * destruct (State.others s !! key); reflexivity.
      * destruct (State.others s !! key); reflexivity.
    + reflexivity.
    + intros Hnone. cbn [Object_assign State.listeners]. rewrite Hnone.
      cbn [default]. subst s. rewrite (proj1 (subscribe_many fns s0)).
      reflexivity.
  - intros fn1 fn2 program s'. split; reflexivity.
Qed.

(** C7 at work: three observers and an update of the view mode. *)
Lemma setState_merges_then_notifies_witness :
  let s := exec (forEach [7; 8; 9]%nat subscribe) state in
  let updates :=
    {| Updates.marketPrice := None; Updates.currentDividend := None;
       Updates.growthRate := None; Updates.viewMode := Some "table"%string;
       Updates.errors := None; Updates.returnCalculations := None;
       Updates.listeners := None; Updates.others := ∅ |} in
  calls (setState updates) s
  = map (fun fn => {| callee := fn; argument := exec (setState updates) s |})
      ([] ++ [7; 8; 9]%nat).
Proof.
  destruct setState_merges_then_notifies as [Hgeneral _].
  apply (Hgeneral [7; 8; 9]%nat). reflexivity.
Defined.

End StoreNotification.

(** ** The update cycle *)

Section UpdateCycle.
Import Calculations Validation Store Main.
Context `{Platform}.

(** [updateCalculations] clears the stored result when the stored errors
    mapping is non-empty ... *)
Lemma updateCalculations_clears_on_errors (s : State.t) :
  hasErrors (State.errors s) = true →
  State.returnCalculations (exec updateCalculations s) = None.
Proof.
  intros Herr. unfold exec, updateCalculations, mbind, Eff_bind, get.
  rewrite Herr, setState_run. reflexivity.
Qed.

(** ... and stores a fresh result when it is empty. *)
Lemma updateCalculations_recomputes (s : State.t) :
  hasErrors (State.errors s) = false →
  State.returnCalculations (exec updateCalculations s)
  = Some (calculateRequiredReturnMetrics (State.marketPrice s)
            (State.currentDividend s) (State.growthRate s)).
Proof.
  intros Herr. unfold exec, updateCalculations, mbind, Eff_bind, get.
  rewrite Herr, setState_run. reflexivity.
Qed.

(** The handler stores the errors mapping it built. *)
Lemma debouncedUpdate_errors (field : string) (value : float) (s : State.t) :
  State.errors (exec (debouncedUpdate field value) s) = errors_after field value s.
Proof.
  unfold exec, debouncedUpdate, mbind, Eff_bind, get.
  fold (errors_after field value s). rewrite setState_run.
  destruct (hasErrors (errors_after field value s)) eqn:Herr; cbn [negb].
  - reflexivity.
  - unfold updateCalculations, mbind, Eff_bind, get.
    cbn [Object_assign State.errors Updates.errors Updates.of_field_and_errors
         default]. unfold id.
    rewrite Herr, setState_run. reflexivity.
Qed.

(** When the errors mapping it built is non-empty, the handler does not
    reach [updateCalculations]: the stored result stays what it was. *)
Lemma debouncedUpdate_invalid_keeps_result
    (field : string) (value : float) (s : State.t) :
  hasErrors (State.errors (exec (debouncedUpdate field value) s)) = true →
  State.returnCalculations (exec (debouncedUpdate field value) s)
  = State.returnCalculations s.
Proof.
  rewrite debouncedUpdate_errors. intros Herr.
  unfold exec, debouncedUpdate, mbind, Eff_bind, get.
  fold (errors_after field value s). rewrite setState_run, Herr.
  reflexivity.
Qed.

End UpdateCycle.

Section UpdateCycleOnReferencePlatform.
Import Calculations Validation Store Main.

(** C2 on the code.  After start-up (on a wide viewport) a result is stored;
    the debounced event that sets [marketPrice] to 0 then leaves a non-empty
    errors mapping and the result computed earlier still stored, not
    [null]; the registered observer is called once more, with that state. *)
Theorem stale_result_survives_invalid_input :
  let s1 := exec (init (H := reference_platform) 1024) state in
  let event := debouncedUpdate (H := reference_platform) "marketPrice" 0 in
  let s2 := exec event s1 in
  hasErrors (State.errors s2) = true
  ∧ State.marketPrice s2 = 0
  ∧ State.returnCalculations s1
    = Some (calculateRequiredReturnMetrics (H := reference_platform) 54.56 5.10 6.40)
  ∧ State.returnCalculations s2 = State.returnCalculations s1
  ∧ State.returnCalculations s2 ≠ None
  ∧ calls event s1 = [ {| callee := handleStateChange; argument := s2 |} ].
Proof.
  intros s1 event s2.
  assert (Herr : hasErrors (State.errors s2) = true) by (vm_compute; reflexivity).
  assert (Hkeep : State.returnCalculations s2 = State.returnCalculations s1)
    by exact (debouncedUpdate_invalid_keeps_result "marketPrice" 0 s1 Herr).
  assert (Hinit : State.returnCalculations s1
                  = Some (calculateRequiredReturnMetrics (H := reference_platform)
                            54.56 5.10 6.40))
    by (vm_compute; reflexivity).
  refine (conj Herr (conj _ (conj Hinit (conj Hkeep (conj _ _))))).
  - vm_compute. reflexivity.
  - rewrite Hkeep, Hinit. discriminate.
  - vm_compute. reflexivity.
Qed.

End UpdateCycleOnReferencePlatform.

(** * Further properties *)

(** ** Validation of the whole form *)

Section FormValidation.
Import Validation.

Lemma rules_of_not_in (table : list (string * Rule.t)) (field : string) :
  field ∉ map fst table → rules_of table field = None.
Proof.
  induction table as [|[k r] table IH]; [reflexivity|].
  cbn [map fst rules_of]. intros Hnotin. case_bool_decide as Hk.
  - exfalso. apply Hnotin. subst k. apply list_elem_of_here.
  - apply IH. intros Hin. apply Hnotin. apply list_elem_of_further, Hin.
Qed.

Lemma rules_of_in (table : list (string * Rule.t)) (field : string) (rules : Rule.t) :
  rules_of table field = Some rules → field ∈ map fst table.
Proof.
  induction table as [|[k r] table IH]; [discriminate|].
  cbn [map fst rules_of]. case_bool_decide as Hk.
  - intros _. subst k. apply list_elem_of_here.
  - intros Hr. apply list_elem_of_further, IH, Hr.
Qed.

(** The messages of the table are not the empty string. *)
Lemma table_messages_nonempty field rules :
  rules_of VALIDATION_RULES field = Some rules →
  required_message rules ≠ ""%string ∧ range_message rules ≠ ""%string.
Proof.
  unfold VALIDATION_RULES. cbn [rules_of].
  repeat case_bool_decide; intros [= <-]; split; vm_compute; discriminate.
Qed.

(** What [validateField] can return. *)
Lemma validateField_cases field value :
  validateField field value = None
  ∨ ∃ rules message,
      rules_of VALIDATION_RULES field = Some rules
      ∧ validateField field value = Some message
      ∧ (message = required_message rules ∨ message = range_message rules)
      ∧ message ≠ ""%string.
Proof.
  unfold validateField.
  destruct (rules_of VALIDATION_RULES field) as [rules|] eqn:Hrules; [|left; reflexivity].
  destruct (table_messages_nonempty _ _ Hrules) as [Hreq Hrange].
  destruct (Rule.required rules
            && (is_empty_string value || is_nullish value || isNaN value)).
  { right. exists rules, (required_message rules). repeat split; auto. }
  destruct (below value (Rule.min rules)).
  { right. exists rules, (range_message rules). repeat split; auto. }
  destruct (above value (Rule.max rules)).
  { right. exists rules, (range_message rules). repeat split; auto. }
  left. reflexivity.
Qed.

(** For the result of [validateField], the test [if (error)] of the callers
    is the test [error !== null]. *)
Lemma truthy_validateField field value :
  truthy (validateField field value)
  = match validateField field value with Some _ => true | None => false end.
Proof.
  destruct (validateField_cases field value)
    as [->|(rules & message & _ & -> & _ & Hne)]; [reflexivity|].
  unfold truthy. rewrite bool_decide_eq_false_2 by exact Hne. reflexivity.
Qed.

(** X1.  [validateField] returns [null] for every field name that is not a
    key of the rule table, whatever the value; and whatever it returns
    otherwise is the required message or the range message of the field's
    rule, never the empty string, so that the callers' test [if (error)]
    holds exactly when the result is not [null]. *)
Theorem validateField_unknown_field_and_messages (field : string) (value : JsValue) :
  (field ∉ ["marketPrice"; "currentDividend"; "growthRate"]%string →
   validateField field value = None)
  ∧ (∀ message, validateField field value = Some message →
       message ≠ ""%string
       ∧ ∃ rules, rules_of VALIDATION_RULES field = Some rules
                  ∧ (message = Rule.label rules +:+ " is required"
                     ∨ message = range_message rules))
  ∧ (truthy (validateField field value) = true ↔ validateField field value ≠ None).
Proof.
  refine (conj _ (conj _ _)).
  - intros Hnotin. unfold validateField.
    rewrite (rules_of_not_in VALIDATION_RULES field Hnotin). reflexivity.
  - intros message Hm.
    destruct (validateField_cases field value)
      as [Hnone|(rules & message' & Hrules & Hsome & Hwhich & Hne)]; [congruence|].
    assert (message' = message) as -> by congruence.
    split; [exact Hne|]. exists rules. split; [exact Hrules|exact Hwhich].
  - rewrite truthy_validateField.
    destruct (validateField field value); split; congruence.
Qed.

(** X1 at work: a name outside the table, and a refused growth rate. *)
Lemma validateField_unknown_field_and_messages_witness :
  validateField "viewMode" JsNull = None
  ∧ "Growth rate must be between 0% and 25%"%string ≠ ""%string.
Proof.
  split.
  - apply (validateField_unknown_field_and_messages "viewMode" JsNull).
    rewrite !elem_of_cons, elem_of_nil. intros [H|[H|[H|[]]]]; discriminate.
  - apply (proj1 (proj2 (validateField_unknown_field_and_messages "growthRate"
                           (JsNumber 26)))
             "Growth rate must be between 0% and 25%"%string).
    vm_compute. reflexivity.
Defined.

Lemma validateAllInputs_fold (inputs : gmap string JsValue) (keys : list string)
    (errors : gmap string string) (field : string) :
  (∀ k, k ∈ keys →
     errors !! k = None
     ∨ errors !! k = validateField k (default JsUndefined (inputs !! k))) →
  fold_left (validateAllInputs_step inputs) keys errors !! field
  = if bool_decide (field ∈ keys)
    then validateField field (default JsUndefined (inputs !! field))
    else errors !! field.
Proof.
  revert errors. induction keys as [|k keys IH]; intros errors Hacc.
  - cbn. rewrite bool_decide_eq_false_2; [reflexivity|]. apply not_elem_of_nil.
  - cbn [fold_left].
    assert (Hk : validateAllInputs_step inputs errors k !! k
                 = validateField k (default JsUndefined (inputs !! k))).
    { unfold validateAllInputs_step. rewrite truthy_validateField.
      destruct (validateField k (default JsUndefined (inputs !! k))) as [m|] eqn:Hv.
      - cbn. apply lookup_insert_eq.
      - destruct (Hacc k) as [He|He]; [apply list_elem_of_here| |]; congruence. }
    assert (Hother : ∀ k', k' ≠ k →
              validateAllInputs_step inputs errors k !! k' = errors !! k').
    { intros k' Hne. unfold validateAllInputs_step.
      destruct (truthy _); [|reflexivity]. apply lookup_insert_ne. congruence. }
    rewrite IH.
    + destruct (decide (field = k)) as [->|Hne].
      * rewrite (bool_decide_eq_true_2 (k ∈ k :: keys)) by apply list_elem_of_here.
        case_bool_decide; [reflexivity|exact Hk].
      * rewrite (Hother field Hne).
        destruct (decide (field ∈ keys)) as [Hin|Hnotin].
        -- rewrite !bool_decide_eq_true_2; auto using list_elem_of_further.
        -- rewrite !bool_decide_eq_false_2; auto.
           rewrite elem_of_cons. intros [?|?]; contradiction.
    + intros k' Hin. destruct (decide (k' = k)) as [->|Hne].
      * right. exact Hk.
      * rewrite (Hother k' Hne). apply Hacc. apply list_elem_of_further, Hin.
Qed.

(** X2.  The mapping returned by [validateAllInputs] has, for every field
    name, exactly the verdict of [validateField] on that property of the
    input object (a missing property is validated as [undefined]): an entry
    with the message when there is one, no entry otherwise. *)
Theorem validateAllInputs_lookup (inputs : gmap string JsValue) (field : string) :
  validateAllInputs inputs !! field
  = validateField field (default JsUndefined (inputs !! field)).
Proof.
  unfold validateAllInputs.
  change (fold_left (validateAllInputs_step inputs) (map fst VALIDATION_RULES) ∅ !! field
          = validateField field (default JsUndefined (inputs !! field))).
  rewrite validateAllInputs_fold by (intros k _; left; apply lookup_empty).
  case_bool_decide as Hin; [reflexivity|].
  rewrite lookup_empty. symmetry. unfold validateField.
  rewrite (rules_of_not_in VALIDATION_RULES field Hin). reflexivity.
Qed.

(** [hasErrors] tells whether the mapping has an entry. *)
Lemma hasErrors_false_iff (errors : gmap string string) :
  hasErrors errors = false ↔ errors = ∅.
Proof.
  unfold hasErrors. rewrite Nat.ltb_ge, length_map.
  rewrite <- map_to_list_empty_iff.
  destruct (map_to_list errors); cbn; split; intros Hl;
    try reflexivity; try discriminate; lia.
Qed.

(** A value passes the check of a field of the table exactly when it is a
    number within the closed interval of the rule. *)
Lemma validateField_None_iff field rules lo hi value :
  rules_of VALIDATION_RULES field = Some rules →
  Rule.min rules = Some lo → Rule.max rules = Some hi →
  validateField field value = None
  ↔ ∃ x, value = JsNumber x
         ∧ (Number_of_Z lo <=? x) = true ∧ (x <=? Number_of_Z hi) = true.
Proof.
  intros Hrules Hmin Hmax.
  destruct (VALIDATION_RULES_shape _ _ Hrules)
    as (Hreq & lo' & hi' & Hmin' & Hmax' & Hlo & Hhi).
  assert (lo' = lo) as -> by congruence.
  assert (hi' = hi) as -> by congruence.
  destruct value as [| | |x].
  1-3: unfold validateField; rewrite Hrules, Hreq; cbn;
       split; [discriminate | intros (x & Hx & _); discriminate].
  rewrite (validateField_number _ _ _ _ x Hrules Hreq Hmin Hmax).
  split.
  - intros Hnone. exists x. split; [reflexivity|].
    apply (within_bounds_iff x _ _ Hlo Hhi).
    destruct (is_nan x), (x <? Number_of_Z lo), (x >? Number_of_Z hi);
      try discriminate; repeat split; reflexivity.
  - intros (x' & [= <-] & Hbounds).
    apply (within_bounds_iff x _ _ Hlo Hhi) in Hbounds as (-> & -> & ->).
    reflexivity.
Qed.

(** X3.  [hasErrors(validateAllInputs(inputs))] is false exactly when the
    three properties [marketPrice], [currentDividend] and [growthRate] of
    the input object are all present, numbers, and within the closed
    intervals [1, 500], [0, 50] and [0, 25]. *)
Theorem form_is_valid_iff (inputs : gmap string JsValue) :
  hasErrors (validateAllInputs inputs) = false
  ↔ ∃ p d g : float,
      inputs !! "marketPrice"%string = Some (JsNumber p)
      ∧ inputs !! "currentDividend"%string = Some (JsNumber d)
      ∧ inputs !! "growthRate"%string = Some (JsNumber g)
      ∧ (1 <=? p) = true ∧ (p <=? 500) = true
      ∧ (0 <=? d) = true ∧ (d <=? 50) = true
      ∧ (0 <=? g) = true ∧ (g <=? 25) = true.
Proof.
  assert (Hlookup : ∀ field,
            validateAllInputs inputs !! field
            = validateField field (default JsUndefined (inputs !! field))).
  { intros field. unfold validateAllInputs.
    change (fold_left (validateAllInputs_step inputs) (map fst VALIDATION_RULES) ∅
              !! field
            = validateField field (default JsUndefined (inputs !! field))).
    rewrite validateAllInputs_fold by (intros k _; left; apply lookup_empty).
    case_bool_decide as Hin; [reflexivity|].
    rewrite lookup_empty. symmetry. unfold validateField.
    rewrite (rules_of_not_in VALIDATION_RULES field Hin). reflexivity. }
  assert (Hnumber : ∀ field x,
            default JsUndefined (inputs !! field) = JsNumber x →
            inputs !! field = Some (JsNumber x)).
  { intros field x. destruct (inputs !! field); cbn; congruence. }
  rewrite hasErrors_false_iff. split.
  - intros Hempty.
    assert (Hnone : ∀ field,
              validateField field (default JsUndefined (inputs !! field)) = None).
    { intros field. rewrite <- Hlookup, Hempty. apply lookup_empty. }
    pose proof (Hnone "marketPrice"%string) as Hp.
    pose proof (Hnone "currentDividend"%string) as Hd.
    pose proof (Hnone "growthRate"%string) as Hg.
    eapply validateField_None_iff in Hp as (p & Hp & Hp1 & Hp2); try reflexivity.
    eapply validateField_None_iff in Hd as (d & Hd & Hd1 & Hd2); try reflexivity.
    eapply validateField_None_iff in Hg as (g & Hg & Hg1 & Hg2); try reflexivity.
    exists p, d, g. repeat split; auto.
  - intros (p & d & g & Hp & Hd & Hg & Hp1 & Hp2 & Hd1 & Hd2 & Hg1 & Hg2).
    apply map_eq. intros field. rewrite Hlookup, lookup_empty.
    destruct (rules_of VALIDATION_RULES field) as [rules|] eqn:Hrules;
      [|unfold validateField; rewrite Hrules; reflexivity].
    revert Hrules. unfold VALIDATION_RULES. cbn [rules_of].
    repeat case_bool_decide; subst; intros [= <-].
    + rewrite Hp. eapply validateField_None_iff; try reflexivity.
      exists p. repeat split; assumption.
    + rewrite Hd. eapply validateField_None_iff; try reflexivity.
      exists d. repeat split; assumption.
    + rewrite Hg. eapply validateField_None_iff; try reflexivity.
      exists g. repeat split; assumption.
Qed.

End FormValidation.

(** ** One input event *)

Section InputEvent.
Import Calculations Validation Store Main.
Context `{Platform}.

(** The handler in one step: one merge and one round of notification, then,
    when no error is left, a second merge with the fresh result and a second
    round. *)
Lemma debouncedUpdate_run (field : string) (value : float) (s : State.t) :
  debouncedUpdate field value s
  = let mid := merged_input field value s in
    if hasErrors (errors_after field value s)
    then (tt, mid, notifications mid ++ [])
    else
      let final :=
        Object_assign mid (Updates.of_returnCalculations (Some (fresh_result mid))) in
      (tt, final, notifications mid ++ ([] ++ notifications final)).
Proof.
  unfold debouncedUpdate, mbind, Eff_bind, get.
  fold (errors_after field value s). rewrite setState_run.
  fold (merged_input field value s). fold (notifications (merged_input field value s)).
  cbn zeta.
  destruct (hasErrors (errors_after field value s)) eqn:Herr; cbn [negb].
  - reflexivity.
  - unfold updateCalculations, mbind, Eff_bind, get.
    assert (Hmid : State.errors (merged_input field value s)
                   = errors_after field value s) by reflexivity.
    rewrite Hmid, Herr, setState_run. reflexivity.
Qed.

(** The entry of the edited field in the rebuilt mapping. *)
Lemma errors_after_lookup (field : string) (value : float) (s : State.t) (k : string) :
  errors_after field value s !! k
  = if bool_decide (k = field) then validateField field (JsNumber value)
    else State.errors s !! k.
Proof.
  unfold errors_after. rewrite truthy_validateField.
  destruct (validateField field (JsNumber value)) as [message|]; cbn [default];
    case_bool_decide as Hk; subst.
  - apply lookup_insert_eq.
  - apply lookup_insert_ne. congruence.
  - apply lookup_delete_eq.
  - apply lookup_delete_ne. congruence.
Qed.

Lemma debouncedUpdate_errors_entry (field : string) (value : float) (s : State.t) :
  State.errors (exec (debouncedUpdate field value) s) = errors_after field value s.
Proof.
  unfold exec. rewrite debouncedUpdate_run. cbn zeta.
  destruct (hasErrors (errors_after field value s)); reflexivity.
Qed.

(** X4.  After the handler of an input has run, the errors mapping holds for
    the edited field exactly what [validateField] says of the new value (the
    message, or no entry), and every other entry is as before. *)
Theorem debouncedUpdate_sets_one_error_entry
    (field : string) (value : float) (s : State.t) :
  let s' := exec (debouncedUpdate field value) s in
  State.errors s' !! field = validateField field (JsNumber value)
  ∧ ∀ k : string, k ≠ field → State.errors s' !! k = State.errors s !! k.
Proof.
  intros s'. subst s'. rewrite debouncedUpdate_errors_entry. split.
  - rewrite errors_after_lookup, bool_decide_eq_true_2; reflexivity.
  - intros k Hk. rewrite errors_after_lookup, bool_decide_eq_false_2; auto.
Qed.

(** The fields the two merges of the handler leave alone. *)
Lemma debouncedUpdate_frame (field : string) (value : float) (s : State.t) :
  let s' := exec (debouncedUpdate field value) s in
  State.marketPrice s'
  = (if bool_decide (field = "marketPrice"%string) then value else State.marketPrice s)
  ∧ State.currentDividend s'
    = (if bool_decide (field = "currentDividend"%string) then value
       else State.currentDividend s)
  ∧ State.growthRate s'
    = (if bool_decide (field = "growthRate"%string) then value else State.growthRate s)
  ∧ State.viewMode s' = State.viewMode s
  ∧ State.listeners s' = State.listeners s.
Proof.
  intros s'. subst s'. unfold exec. rewrite debouncedUpdate_run. cbn zeta.
  destruct (hasErrors (errors_after field value s));
    cbn [fst snd Object_assign State.marketPrice State.currentDividend
         State.growthRate State.viewMode State.listeners
         Updates.marketPrice Updates.currentDividend Updates.growthRate
         Updates.viewMode Updates.listeners Updates.of_returnCalculations
         merged_input Updates.of_field_and_errors default];
    repeat split; repeat case_bool_decide; reflexivity.
Qed.

(** X5.  The handler of an input stores the parsed value in its field
    whether or not the value passes validation, and leaves the two other
    inputs, the view mode and the list of observers as they were. *)
Theorem debouncedUpdate_stores_value_even_if_invalid
    (field : string) (value : float) (s : State.t) :
  field ∈ map snd Events.inputs →
  let s' := exec (debouncedUpdate field value) s in
  state_get s' field = JsNumber value
  ∧ (∀ k, k ∈ map snd Events.inputs → k ≠ field → state_get s' k = state_get s k)
  ∧ State.viewMode s' = State.viewMode s
  ∧ State.listeners s' = State.listeners s.
Proof.
  intros Hfield s'.
  destruct (debouncedUpdate_frame field value s) as (Hp & Hd & Hg & Hv & Hl).
  fold s' in Hp, Hd, Hg, Hv, Hl.
  assert (Hthree : ∀ k, k ∈ map snd Events.inputs →
            k = "marketPrice"%string ∨ k = "currentDividend"%string
            ∨ k = "growthRate"%string).
  { intros k. cbn. rewrite !elem_of_cons, elem_of_nil. tauto. }
  refine (conj _ (conj _ (conj Hv Hl))).
  - unfold state_get. rewrite Hp, Hd, Hg.
    destruct (Hthree field Hfield) as [-> | [-> | ->]]; reflexivity.
  - intros k Hk Hne. unfold state_get. rewrite Hp, Hd, Hg.
    destruct (Hthree k Hk) as [-> | [-> | ->]];
      destruct (Hthree field Hfield) as [-> | [-> | ->]];
      try contradiction; reflexivity.
Qed.

(** X6.  The handler notifies in rounds.  Its first [setState] leaves the
    stored result untouched and every observer is called with that state
    (the new value next to the previous result).  When an error is left
    that is all: each observer has been called once.  When no error is left
    the result is recomputed from the stored inputs and every observer is
    called a second time, with the final state. *)
Theorem debouncedUpdate_notification_rounds
    (field : string) (value : float) (s : State.t) :
  let s' := exec (debouncedUpdate field value) s in
  let mid := merged_input field value s in
  State.returnCalculations mid = State.returnCalculations s
  ∧ (hasErrors (State.errors s') = true →
     s' = mid ∧ calls (debouncedUpdate field value) s = notifications mid)
  ∧ (hasErrors (State.errors s') = false →
     State.returnCalculations s' = Some (fresh_result s')
     ∧ calls (debouncedUpdate field value) s
       = notifications mid ++ notifications s').
Proof.
  intros s' mid. subst s'.
  rewrite debouncedUpdate_errors_entry.
  unfold exec, calls. rewrite debouncedUpdate_run. cbn zeta. fold mid.
  refine (conj eq_refl (conj _ _)); intros Herr; rewrite Herr; cbn [fst snd].
  - split; [reflexivity | apply app_nil_r].
  - split; reflexivity.
Qed.

(** Two states with the same properties are the same state. *)
Lemma State_eq (a b : State.t) :
  State.marketPrice a = State.marketPrice b →
  State.currentDividend a = State.currentDividend b →
  State.growthRate a = State.growthRate b →
  State.viewMode a = State.viewMode b →
  State.errors a = State.errors b →
  State.returnCalculations a = State.returnCalculations b →
  State.listeners a = State.listeners b →
  State.others a = State.others b →
  a = b.
Proof. destruct a, b; cbn; intros; subst; reflexivity. Qed.

Lemma errors_after_idemp (field : string) (value : float) (s s' : State.t) :
  State.errors s' = errors_after field value s →
  errors_after field value s' = errors_after field value s.
Proof.
  intros Hs'. apply map_eq. intros k.
  rewrite (errors_after_lookup field value s' k), Hs', errors_after_lookup.
  case_bool_decide; reflexivity.
Qed.

(** X7.  The handler is idempotent on the store: run a second time with the
    same field and value (the [input] and the [change] listener of an
    element share it), it leaves the state the first run left. *)
Theorem debouncedUpdate_idempotent (field : string) (value : float) (s : State.t) :
  exec (debouncedUpdate field value) (exec (debouncedUpdate field value) s)
  = exec (debouncedUpdate field value) s.
Proof.
  set (s' := exec (debouncedUpdate field value) s).
  assert (Herrors : State.errors s' = errors_after field value s)
    by apply debouncedUpdate_errors_entry.
  destruct (debouncedUpdate_frame field value s) as (Hp & Hd & Hg & Hv & Hl).
  fold s' in Hp, Hd, Hg, Hv, Hl.
  assert (Hothers : State.others s'
                    = Updates.others (Updates.of_field_and_errors field value
                                        (errors_after field value s))
                      ∪ State.others s).
  { subst s'. unfold exec. rewrite debouncedUpdate_run. cbn zeta.
    destruct (hasErrors (errors_after field value s)); cbn; [reflexivity|].
    apply (left_id_L ∅ (∪)). }
  assert (Hmid : merged_input field value s' = s').
  { apply State_eq; unfold merged_input;
      cbn [Object_assign State.marketPrice State.currentDividend State.growthRate
           State.viewMode State.errors State.returnCalculations State.listeners
           State.others Updates.marketPrice Updates.currentDividend
           Updates.growthRate Updates.viewMode Updates.errors
           Updates.returnCalculations Updates.listeners Updates.others
           Updates.of_field_and_errors default]; unfold id.
    - rewrite Hp. destruct (bool_decide (field = "marketPrice"%string)); reflexivity.
    - rewrite Hd. destruct (bool_decide (field = "currentDividend"%string)); reflexivity.
    - rewrite Hg. destruct (bool_decide (field = "growthRate"%string)); reflexivity.
    - reflexivity.
    - rewrite (errors_after_idemp field value s s' Herrors). symmetry. exact Herrors.
    - reflexivity.
    - reflexivity.
    - rewrite Hothers. cbn [Updates.others Updates.of_field_and_errors].
      rewrite (assoc_L (∪)), (idemp_L (∪)). reflexivity. }
  unfold exec at 1. rewrite debouncedUpdate_run. cbn zeta.
  rewrite Hmid, (errors_after_idemp field value s s' Herrors).
  destruct (hasErrors (errors_after field value s)) eqn:Herr; cbn [fst snd];
    [reflexivity|].
  assert (Hresult : State.returnCalculations s' = Some (fresh_result s')).
  { subst s'. unfold exec. rewrite debouncedUpdate_run. cbn zeta. rewrite Herr.
    reflexivity. }
  apply State_eq; cbn [Object_assign State.marketPrice State.currentDividend
    State.growthRate State.viewMode State.errors State.returnCalculations
    State.listeners State.others Updates.marketPrice Updates.currentDividend
    Updates.growthRate Updates.viewMode Updates.errors Updates.returnCalculations
    Updates.listeners Updates.others Updates.of_returnCalculations default];
    unfold id; try reflexivity.
  - symmetry. exact Hresult.
  - apply (left_id_L ∅ (∪)).
Qed.

End InputEvent.

Section InputEventOnReferencePlatform.
Import Calculations Validation Store Main.

(** X5 at work: a market price of 0 is stored although it is refused. *)
Lemma debouncedUpdate_stores_value_even_if_invalid_witness :
  state_get (exec (debouncedUpdate (H := reference_platform) "marketPrice" 0) state)
    "marketPrice"
  = JsNumber 0.
Proof.
  apply (debouncedUpdate_stores_value_even_if_invalid (H := reference_platform)
           "marketPrice" 0 state).
  apply list_elem_of_here.
Defined.

(** X6 at work: after start-up, a market price of 60 is accepted and the
    observer is called twice. *)
Lemma debouncedUpdate_notification_rounds_witness :
  let s := exec (init (H := reference_platform) 1024) state in
  let event := debouncedUpdate (H := reference_platform) "marketPrice" 60 in
  calls event s
  = notifications (merged_input "marketPrice" 60 s) ++ notifications (exec event s).
Proof.
  intros s event.
  apply (debouncedUpdate_notification_rounds (H := reference_platform)
           "marketPrice" 60 s).
  vm_compute. reflexivity.
Defined.

End InputEventOnReferencePlatform.

(** ** Sessions: start-up followed by events *)

Section Sessions.
Import Calculations Validation Store Main Events.
Context `{Platform}.

Lemma switchView_run (view : string) (s : State.t) :
  switchView view s
  = (tt, Object_assign s (Updates.of_viewMode view),
     notifications (Object_assign s (Updates.of_viewMode view))).
Proof. unfold switchView. apply setState_run. Qed.

Lemma handleResponsiveView_run (viewportWidth : float) (s : State.t) :
  handleResponsiveView viewportWidth s
  = if (viewportWidth <? 600)
       && bool_decide (State.viewMode s = "chart"%string)
    then (tt, Object_assign s (Updates.of_viewMode "table"),
          [] ++ notifications (Object_assign s (Updates.of_viewMode "table")))
    else (tt, s, []).
Proof.
  unfold handleResponsiveView. destruct (viewportWidth <? 600); [|reflexivity].
  unfold mbind, Eff_bind, get. cbn [andb].
  case_bool_decide; [|reflexivity]. rewrite switchView_run. reflexivity.
Qed.

(** Merging an update that names neither an input, nor the errors, nor a new
    property changes nothing [validateField] or the calculation looks at. *)
Lemma state_get_Object_assign (s : State.t) (u : Updates.t) (field : string) :
  Updates.marketPrice u = None → Updates.currentDividend u = None →
  Updates.growthRate u = None → Updates.others u = ∅ →
  state_get (Object_assign s u) field = state_get s field.
Proof.
  intros Hp Hd Hg Ho. unfold state_get.
  cbn [Object_assign State.marketPrice State.currentDividend State.growthRate
       State.others].
  rewrite Hp, Hd, Hg, Ho, (left_id_L ∅ (∪)). reflexivity.
Qed.

Lemma session_invariant_viewMode (view : string) (s : State.t) :
  session_invariant s →
  session_invariant (Object_assign s (Updates.of_viewMode view)).
Proof.
  intros (Hmirror & Hfresh & Hl & Hrc). repeat split.
  - intros field. rewrite state_get_Object_assign by reflexivity. apply Hmirror.
  - exact Hfresh.
  - exact Hl.
  - exact Hrc.
Qed.

Lemma session_invariant_debouncedUpdate (field : string) (value : float) (s : State.t) :
  field ∈ map snd inputs →
  session_invariant s →
  session_invariant (exec (debouncedUpdate field value) s).
Proof.
  intros Hfield (Hmirror & Hfresh & Hl & Hrc).
  set (s' := exec (debouncedUpdate field value) s).
  assert (Herrors : State.errors s' = errors_after field value s)
    by apply debouncedUpdate_errors_entry.
  destruct (debouncedUpdate_frame field value s) as (Hp & Hd & Hg & Hv & Hl').
  fold s' in Hp, Hd, Hg, Hv, Hl'.
  assert (Hthree : ∀ k, k ∈ ["marketPrice"; "currentDividend"; "growthRate"]%string →
            k = "marketPrice"%string ∨ k = "currentDividend"%string
            ∨ k = "growthRate"%string).
  { intros k. rewrite !elem_of_cons, elem_of_nil. tauto. }
  repeat split.
  - intros k. rewrite Herrors, errors_after_lookup.
    destruct (decide (k ∈ ["marketPrice"; "currentDividend"; "growthRate"]%string))
      as [Hk|Hk].
    + unfold state_get. rewrite Hp, Hd, Hg.
      specialize (Hmirror k). unfold state_get in Hmirror.
      destruct (Hthree k Hk) as [-> | [-> | ->]];
        destruct (Hthree field Hfield) as [-> | [-> | ->]];
        try reflexivity; exact Hmirror.
    + rewrite bool_decide_eq_false_2 by (intros ->; contradiction).
      rewrite Hmirror. unfold validateField.
      rewrite (rules_of_not_in VALIDATION_RULES k Hk). reflexivity.
  - intros Herr. rewrite Herrors in Herr.
    subst s'. unfold exec. rewrite debouncedUpdate_run. cbn zeta. rewrite Herr.
    reflexivity.
  - rewrite Hl'. exact Hl.
  - subst s'. unfold exec. rewrite debouncedUpdate_run. cbn zeta.
    destruct (hasErrors (errors_after field value s)); cbn; [exact Hrc|discriminate].
Qed.

Lemma session_invariant_dispatch (e : Event) (s : State.t) :
  session_invariant s → session_invariant (exec (dispatch e) s).
Proof.
  intros Hinv. destruct e as [field value|view|viewportWidth]; unfold dispatch.
  - case_bool_decide as Hfield; [|exact Hinv].
    apply session_invariant_debouncedUpdate; assumption.
  - unfold exec. rewrite switchView_run. apply session_invariant_viewMode, Hinv.
  - unfold exec. rewrite handleResponsiveView_run.
    destruct (_ && _); [|exact Hinv].
    apply session_invariant_viewMode, Hinv.
Qed.

Lemma exec_forEach {A} (f : A → Eff unit) (xs : list A) (s : State.t) :
  exec (forEach xs f) s = fold_left (fun s x => exec (f x) s) xs s.
Proof.
  revert s. induction xs as [|x xs IH]; intros s; [reflexivity|].
  cbn [forEach fold_left]. rewrite <- IH. unfold exec, mbind, Eff_bind.
  destruct (f x s) as [[[] s1] calls1]. cbn [fst snd].
  destruct (forEach xs f s1) as [[[] s2] calls2]. reflexivity.
Qed.

Lemma session_invariant_init (viewportWidth : float) :
  session_invariant (exec (init viewportWidth) state).
Proof.
  unfold exec, init, mbind, Eff_bind. rewrite handleResponsiveView_run.
  set (s0 := if (viewportWidth <? 600) && _ then _ else _).
  assert (Hs0 : ∃ view, s0.1.2 = Object_assign state (Updates.of_viewMode view)).
  { subst s0. destruct (_ && _); [exists "table"%string|exists "chart"%string];
      reflexivity. }
  destruct s0 as [[[] s1] calls1]. cbn [fst snd] in Hs0. destruct Hs0 as [view ->].
  unfold subscribe, mbind, Eff_bind, get, put.
  unfold updateCalculations, mbind, Eff_bind, get.
  cbn [State.set_listeners State.errors Object_assign Updates.errors
       Updates.of_viewMode default state]. unfold id.
  change (hasErrors ∅) with false. cbn iota. rewrite setState_run. cbn [fst snd].
  repeat split.
  - intros field.
    destruct (decide (field ∈ ["marketPrice"; "currentDividend"; "growthRate"]%string))
      as [Hk|Hk].
    + revert Hk. rewrite !elem_of_cons, elem_of_nil.
      intros [-> | [-> | [-> | []]]]; vm_compute; reflexivity.
    + unfold validateField. rewrite (rules_of_not_in VALIDATION_RULES field Hk).
      reflexivity.
  - discriminate.
Qed.

Lemma session_invariant_session (viewportWidth : float) (events : list Event) :
  session_invariant (exec (session viewportWidth events) state).
Proof.
  unfold session.
  assert (Hseq : exec (init viewportWidth ;; forEach events dispatch) state
                 = exec (forEach events dispatch) (exec (init viewportWidth) state)).
  { unfold exec, mbind, Eff_bind.
    destruct (init viewportWidth state) as [[[] s1] calls1]. cbn [fst snd].
    destruct (forEach events dispatch s1) as [[[] s2] calls2]. reflexivity. }
  rewrite Hseq, exec_forEach. clear Hseq.
  generalize (session_invariant_init viewportWidth).
  generalize (exec (init viewportWidth) state).
  induction events as [|e events IH]; intros s Hinv; [exact Hinv|].
  cbn [fold_left]. apply IH, session_invariant_dispatch, Hinv.
Qed.

(** X8.  Throughout a session (start-up, then any sequence of input,
    view-button and resize events) the errors mapping has, for every field
    name, exactly the verdict of [validateField] on the value stored for
    that field; and whenever the mapping is empty the stored result is the
    one computed from the three stored inputs. *)
Theorem session_errors_mirror_inputs
    (viewportWidth : float) (events : list Event) :
  let s := exec (session viewportWidth events) state in
  (∀ field : string,
     State.errors s !! field = validateField field (state_get s field))
  ∧ (hasErrors (State.errors s) = false →
     State.returnCalculations s
     = Some (calculateRequiredReturnMetrics (State.marketPrice s)
               (State.currentDividend s) (State.growthRate s))).
Proof.
  intros s.
  destruct (session_invariant_session viewportWidth events)
    as (Hmirror & Hfresh & _ & _).
  split; [exact Hmirror | exact Hfresh].
Qed.

(** X9.  Throughout a session the only observer is [handleStateChange],
    registered once, and, observers returning normally, the stored result
    is never [null] again once start-up has run: no event handler reaches
    the branch of [updateCalculations] that clears it. *)
Theorem session_result_never_null (viewportWidth : float) (events : list Event) :
  let s := exec (session viewportWidth events) state in
  State.listeners s = [handleStateChange]
  ∧ State.returnCalculations s ≠ None.
Proof.
  intros s.
  destruct (session_invariant_session viewportWidth events)
    as (_ & _ & Hl & Hrc).
  split; [exact Hl | exact Hrc].
Qed.

(** X10.  [handleResponsiveView] leaves any view mode but [chart] on a
    viewport narrower than 600, by switching [chart] to [table] (one round
    of notification); on any other width, NaN included, and whenever the
    mode is not [chart], it touches nothing and calls nobody.  In all cases
    only the view mode can change. *)
Theorem handleResponsiveView_leaves_chart_when_narrow
    (viewportWidth : float) (s : State.t) :
  let s' := exec (handleResponsiveView viewportWidth) s in
  ((viewportWidth <? 600) = true → State.viewMode s' ≠ "chart"%string)
  ∧ ((viewportWidth <? 600) = false ∨ State.viewMode s ≠ "chart"%string →
     s' = s ∧ calls (handleResponsiveView viewportWidth) s = [])
  ∧ ((viewportWidth <? 600) = true → State.viewMode s = "chart"%string →
     State.viewMode s' = "table"%string
     ∧ calls (handleResponsiveView viewportWidth) s = notifications s')
  ∧ State.marketPrice s' = State.marketPrice s
  ∧ State.currentDividend s' = State.currentDividend s
  ∧ State.growthRate s' = State.growthRate s
  ∧ State.errors s' = State.errors s
  ∧ State.returnCalculations s' = State.returnCalculations s
  ∧ State.listeners s' = State.listeners s.
Proof.
  intros s'. subst s'. unfold exec, calls. rewrite handleResponsiveView_run.
  destruct (decide (State.viewMode s = "chart"%string)) as [Hmode|Hmode];
    [rewrite (bool_decide_eq_true_2 _ Hmode)
    |rewrite (bool_decide_eq_false_2 _ Hmode)];
    destruct (viewportWidth <? 600) eqn:Hw; cbn [andb fst snd];
    repeat split; try reflexivity; try congruence; try discriminate;
    try (match goal with
         | Hor : _ ∨ _ |- _ => destruct Hor; [discriminate|contradiction]
         end).
Qed.

End Sessions.

Section SessionsOnReferencePlatform.
Import Calculations Validation Store Main Events.

(** X8 at work: a session whose last edit repairs the market price. *)
Lemma session_errors_mirror_inputs_witness :
  let s :=
    exec (session (H := reference_platform) 1024
            [InputChange "marketPrice" 0; ViewClick "table";
             InputChange "marketPrice" 60]) state in
  State.returnCalculations s
  = Some (calculateRequiredReturnMetrics (H := reference_platform)
            (State.marketPrice s) (State.currentDividend s) (State.growthRate s)).
Proof.
  apply (session_errors_mirror_inputs (H := reference_platform) 1024).
  vm_compute. reflexivity.
Defined.

(** X10 at work: start-up state on a phone. *)
Lemma handleResponsiveView_leaves_chart_when_narrow_witness :
  State.viewMode (exec (handleResponsiveView 390) state) ≠ "chart"%string.
Proof.
  apply (handleResponsiveView_leaves_chart_when_narrow 390 state).
  vm_compute. reflexivity.
Defined.

End SessionsOnReferencePlatform.

(** ** More on the store *)

Section StoreComposition.
Import Validation Store.




End StoreComposition.

(** ** Edges of the calculation *)

Section CalculationEdges.
Import Calculations.

Lemma leb_nan_false (a b : float) :
  is_nan a = true ∨ is_nan b = true → (a <=? b) = false.
Proof.
  rewrite FloatAxioms.leb_spec. unfold SFleb.
  intros [Hn|Hn]; apply is_nan_Prim2SF in Hn; rewrite Hn;
    [|destruct (Prim2SF a)]; reflexivity.
Qed.

Lemma leb_refl_not_nan (a : float) : is_nan a = false → (a <=? a) = true.
Proof.
  intros Hn. rewrite FloatAxioms.leb_spec.
  assert (Heq : SFeqb (Prim2SF a) (Prim2SF a) = true).
  { rewrite SFeqb_refl_or_nan. destruct (Prim2SF a) eqn:Ha; try reflexivity.
    apply is_nan_Prim2SF in Ha. congruence. }
  unfold SFeqb in Heq. unfold SFleb.
  destruct (SFcompare (Prim2SF a) (Prim2SF a)) as [[]|]; congruence.
Qed.

(** A quotient whose divisor is a difference with a NaN operand is NaN. *)
Lemma div_sub_nan (d r g : float) :
  is_nan r = true ∨ is_nan g = true → d / (r - g) = nan.
Proof.
  intros Hn. apply Prim2SF_inj.
  rewrite FloatAxioms.div_spec, FloatAxioms.sub_spec.
  change (Prim2SF nan) with S754_nan. unfold SF64div, SF64sub.
  destruct Hn as [Hn|Hn]; apply is_nan_Prim2SF in Hn; rewrite Hn.
  - destruct (Prim2SF d); reflexivity.
  - destruct (Prim2SF r), (Prim2SF d); reflexivity.
Qed.

(** X12.  The guard of [calculateGordonPrice] lets NaN through: when the
    required return or the growth rate is NaN nothing is thrown and the
    price returned is NaN.  Equal rates that are numbers are refused. *)
Theorem calculateGordonPrice_NaN_and_equal_rates (d1 r g : float) :
  (is_nan r = true ∨ is_nan g = true → calculateGordonPrice d1 r g = inr nan)
  ∧ (is_nan r = false →
     calculateGordonPrice d1 r r
     = inl "Growth rate must be less than required return"%string).
Proof.
  unfold calculateGordonPrice. split.
  - intros Hn. rewrite leb_nan_false by tauto. rewrite div_sub_nan by exact Hn.
    reflexivity.
  - intros Hn. rewrite leb_refl_not_nan by exact Hn. reflexivity.
Qed.

Lemma calculateGordonPrice_NaN_and_equal_rates_witness :
  calculateGordonPrice 2.1 nan 0.05 = inr nan
  ∧ calculateGordonPrice 2.1 0.05 0.05
    = inl "Growth rate must be less than required return"%string.
Proof.
  split.
  - apply (calculateGordonPrice_NaN_and_equal_rates 2.1 nan 0.05).
    left. reflexivity.
  - apply (calculateGordonPrice_NaN_and_equal_rates 2.1 0.05 0.05). reflexivity.
Defined.

(** A positive number divided by [0] is [Infinity]. *)
Lemma positive_div_zero (d : float) : (0 <? d) = true → d / 0 = infinity.
Proof.
  rewrite FloatAxioms.ltb_spec. intros Hpos. apply Prim2SF_inj.
  rewrite FloatAxioms.div_spec.
  change (Prim2SF 0) with (S754_zero false) in *.
  change (Prim2SF infinity) with (S754_infinity false).
  unfold SFltb in Hpos. unfold SF64div.
  destruct (Prim2SF d) as [s|s| |s m e]; try discriminate;
    destruct s; try discriminate; reflexivity.
Qed.

(** [Infinity] plus anything above [-Infinity] is [Infinity]. *)
Lemma infinity_add (g : float) :
  (neg_infinity <? g) = true → infinity + g = infinity.
Proof.
  rewrite FloatAxioms.ltb_spec. intros Hg. apply Prim2SF_inj.
  rewrite FloatAxioms.add_spec.
  change (Prim2SF neg_infinity) with (S754_infinity true) in *.
  change (Prim2SF infinity) with (S754_infinity false).
  unfold SFltb in Hg. unfold SF64add.
  destruct (Prim2SF g) as [s|s| |s m e]; try discriminate; try reflexivity.
  destruct s; [discriminate|reflexivity].
Qed.

(** X13.  [calculateRequiredReturn] does not guard its division: with
    [marketPrice = 0] and a positive next dividend the dividend yield and
    the required return are [Infinity] (in both scales), and the result is
    still flagged valid whenever the growth rate is below [Infinity]. *)
Theorem calculateRequiredReturn_zero_price (currentDividend growthRate : float) :
  let r := calculateRequiredReturn 0 currentDividend growthRate in
  (0 <? d1 r) = true →
  (neg_infinity <? growthRateDecimal r) = true →
  dividendYieldDecimal r = infinity
  ∧ requiredReturnDecimal r = infinity
  ∧ requiredReturn r = infinity
  ∧ dividendYield r = infinity
  ∧ isValid r = (growthRateDecimal r <? infinity).
Proof.
  intros r Hd1 Hg. subst r.
  cbn [d1 growthRateDecimal dividendYieldDecimal requiredReturnDecimal
       requiredReturn dividendYield isValid calculateRequiredReturn] in *.
  rewrite (positive_div_zero _ Hd1), (infinity_add _ Hg).
  repeat split; reflexivity.
Qed.

Lemma calculateRequiredReturn_zero_price_witness :
  isValid (calculateRequiredReturn 0 2 5) = (5 / 100 <? infinity).
Proof.
  apply (calculateRequiredReturn_zero_price 2 5); vm_compute; reflexivity.
Defined.

End CalculationEdges.

(** ** More on the cash-flow projection *)

Section CashFlowShape.
Import Calculations.
Context `{Platform}.

Lemma same_up_to_zero_sign_sym (x y : float) :
  same_up_to_zero_sign x y → same_up_to_zero_sign y x.
Proof.
  intros [->|(sx & sy & Hx & Hy)]; [left; reflexivity|].
  right. exists sy, sx. split; assumption.
Qed.

Lemma add_zero_same (x : float) : same_up_to_zero_sign (x + 0) x.
Proof.
  destruct (Prim2SF x) as [sx|sx| |sx mx ex] eqn:Hx.
  - right. exists (if sx then false else false), sx.
    split; [|exact Hx]. rewrite FloatAxioms.add_spec, Hx.
    change (Prim2SF 0) with (S754_zero false). destruct sx; reflexivity.
  - left. apply Prim2SF_inj. rewrite FloatAxioms.add_spec, Hx. reflexivity.
  - left. apply Prim2SF_inj. rewrite FloatAxioms.add_spec, Hx. reflexivity.
  - left. apply Prim2SF_inj. rewrite FloatAxioms.add_spec, Hx. reflexivity.
Qed.

(** X14.  In every point [generateCashFlows] returns, the total cash flow is
    the investment plus the dividend (the same number, up to the sign of a
    zero): the two stacked series of the chart add up to the total
    series. *)
Theorem totalCashFlow_is_investment_plus_dividend
    (marketPrice currentDividend g : float) (years : option nat)
    (i : nat) (p : CashFlowPoint) :
  generateCashFlows marketPrice currentDividend g years !! i = Some p →
  SameValueZero (investment p + dividend p) (totalCashFlow p) = true
  ∧ Chart.totalData (generateCashFlows marketPrice currentDividend g years) !! i
    = Some (totalCashFlow p)
  ∧ Chart.investmentData (generateCashFlows marketPrice currentDividend g years) !! i
    = Some (investment p)
  ∧ Chart.dividendData (generateCashFlows marketPrice currentDividend g years) !! i
    = Some (dividend p).
Proof.
  intros Hp. split.
  - apply same_up_to_zero_sign_SameValueZero.
    revert Hp. rewrite generateCashFlows_cons. destruct i as [|i].
    + intros [= <-]. cbn [investment dividend totalCashFlow]. apply add_zero_same.
    + intros Hp.
      change (cashFlowsLoop currentDividend g (default 10%nat years) 1
                (- marketPrice) [] !! i = Some p) in Hp.
      assert (Hi : (i < default 10%nat years)%nat).
      { apply lookup_lt_Some in Hp. now rewrite cashFlowsLoop_length in Hp. }
      destruct (cashFlowsLoop_lookup currentDividend g (default 10%nat years) 1
                  (- marketPrice) i Hi) as (p' & Hp' & _ & _ & Hinv & Htot).
      assert (p' = p) as -> by congruence.
      rewrite Hinv, Htot. apply same_up_to_zero_sign_sym, zero_add_same.
  - unfold Chart.totalData, Chart.investmentData, Chart.dividendData.
    change map with (@fmap list _). rewrite !list_lookup_fmap, Hp.
    repeat split; reflexivity.
Qed.

Lemma cashFlowsLoop_take cd g (n m year : nat) cumulativeTotal :
  (n ≤ m)%nat →
  take n (cashFlowsLoop cd g m year cumulativeTotal [])
  = cashFlowsLoop cd g n year cumulativeTotal [].
Proof.
  revert m year cumulativeTotal.
  induction n as [|n IH]; intros m year cumulativeTotal Hnm; [reflexivity|].
  destruct m as [|m]; [lia|]. rewrite !cashFlowsLoop_cons.
  cbn [take]. rewrite IH by lia. reflexivity.
Qed.

(** X15.  A longer projection extends a shorter one: the first [n + 1]
    points of the projection over [m >= n] years are the projection over
    [n] years, so that no point depends on the horizon. *)
Theorem generateCashFlows_prefix
    (marketPrice currentDividend g : float) (n m : nat) :
  (n ≤ m)%nat →
  take (S n) (generateCashFlows marketPrice currentDividend g (Some m))
  = generateCashFlows marketPrice currentDividend g (Some n).
Proof.
  intros Hnm. rewrite !generateCashFlows_cons. cbn [take default].
  rewrite cashFlowsLoop_take by exact Hnm. reflexivity.
Qed.

End CashFlowShape.

Section CashFlowShapeOnReferencePlatform.
Import Calculations.

Lemma totalCashFlow_is_investment_plus_dividend_witness :
  SameValueZero (- 50 + 0) (- 50) = true.
Proof.
  apply (totalCashFlow_is_investment_plus_dividend (H := reference_platform)
           50 2 0.05 (Some 3%nat) 0
           {| year := 0; dividend := 0; investment := - 50;
              totalCashFlow := - 50; cumulativeCashFlow := - 50 |}).
  reflexivity.
Defined.

Lemma generateCashFlows_prefix_witness :
  take 3 (generateCashFlows (H := reference_platform) 50 2 0.05 (Some 10%nat))
  = generateCashFlows (H := reference_platform) 50 2 0.05 (Some 2%nat).
Proof.
  apply (generateCashFlows_prefix (H := reference_platform) 50 2 0.05 2 10). lia.
Defined.

End CashFlowShapeOnReferencePlatform.

(** ** Keyboard focus in the chart *)

Section ChartFocus.
Import Calculations Chart.

Lemma at_index_in_range {A} (array : list A) (index : Z) :
  (0 ≤ index < Z.of_nat (length array))%Z →
  ∃ x, at_index array index = Some x ∧ array !! Z.to_nat index = Some x.
Proof.
  intros Hrange. unfold at_index.
  destruct (index <? 0)%Z eqn:Hneg; [lia|].
  destruct (lookup_lt_is_Some_2 array (Z.to_nat index)) as [x Hx]; [lia|].
  exists x. split; exact Hx.
Qed.

(** One key press keeps the focus within the series, and what it announces
    is a point of the series with its total. *)
Lemma keydownListener_in_range (cashFlows : list CashFlowPoint) (key : string)
    (f : Focus) :
  (0 ≤ currentFocusIndex f < Z.of_nat (length cashFlows))%Z →
  let '(f', announcement) := keydownListener cashFlows key f in
  (0 ≤ currentFocusIndex f' < Z.of_nat (length cashFlows))%Z
  ∧ isKeyboardMode f' = true
  ∧ ∀ a, announcement = Some a →
      currentFocusIndex f' ≠ currentFocusIndex f
      ∧ ∃ p, cashFlows !! Z.to_nat (currentFocusIndex f') = Some p
             ∧ cashFlow a = Some p
             ∧ total a = Some (totalCashFlow p).
Proof.
  intros Hrange. unfold keydownListener.
  cbn [currentFocusIndex isKeyboardMode].
  set (maxIndex := (Z.of_nat (length cashFlows) - 1)%Z).
  assert (Hstep : ∀ newIndex : Z,
    (0 ≤ newIndex < Z.of_nat (length cashFlows))%Z →
    let '(f', announcement) :=
      (if bool_decide (newIndex ≠ currentFocusIndex f)
       then ({| currentFocusIndex := newIndex; isKeyboardMode := true |},
             Some {| cashFlow := at_index cashFlows newIndex;
                     total := at_index (totalData cashFlows) newIndex |})
       else ({| currentFocusIndex := currentFocusIndex f; isKeyboardMode := true |},
             None)) in
    (0 ≤ currentFocusIndex f' < Z.of_nat (length cashFlows))%Z
    ∧ isKeyboardMode f' = true
    ∧ ∀ a, announcement = Some a →
        currentFocusIndex f' ≠ currentFocusIndex f
        ∧ ∃ p, cashFlows !! Z.to_nat (currentFocusIndex f') = Some p
               ∧ cashFlow a = Some p
               ∧ total a = Some (totalCashFlow p)).
  { intros newIndex Hnew. case_bool_decide as Hchange; cbn [currentFocusIndex isKeyboardMode].
    - refine (conj Hnew (conj eq_refl _)). intros a [= <-]. split; [exact Hchange|].
      destruct (at_index_in_range cashFlows newIndex Hnew) as (p & Hat & Hp).
      exists p. cbn [cashFlow total]. repeat split; try assumption.
      unfold at_index, totalData in *.
      destruct (newIndex <? 0)%Z; [discriminate|].
      change map with (@fmap list _). rewrite list_lookup_fmap, Hp. reflexivity.
    - refine (conj Hrange (conj eq_refl _)). discriminate. }
  subst maxIndex.
  destruct (bool_decide (key ∈ ["ArrowRight"; "ArrowDown"]%string));
    [apply Hstep; lia|].
  destruct (bool_decide (key ∈ ["ArrowLeft"; "ArrowUp"]%string));
    [apply Hstep; lia|].
  destruct (bool_decide (key = "Home"%string)); [apply Hstep; lia|].
  destruct (bool_decide (key = "End"%string)); [apply Hstep; lia|].
  cbn [currentFocusIndex isKeyboardMode].
  refine (conj Hrange (conj eq_refl _)). discriminate.
Qed.

(** The tests on [e.key], for a given key. *)
Ltac evaluate_key_tests :=
  repeat match goal with
         | |- context [bool_decide (?k ∈ ?l)] =>
             let b := eval vm_compute in (bool_decide (k ∈ l)) in
             change (bool_decide (k ∈ l)) with b
         | |- context [bool_decide (@eq string ?k ?k')] =>
             let b := eval vm_compute in (bool_decide (k = k')) in
             change (bool_decide (k = k')) with b
         end;
  cbv beta iota.

(** X16.  Keyboard navigation of the chart never leaves the series.  From a
    focus index within a (non-empty) series, as [renderChart] sets it, any
    run of key presses leaves the index within the series, and every
    announcement made on the way is of a point of the series together with
    the entry of [totalData] at the same index.  At the two ends the keys
    saturate: they neither move the focus nor announce anything. *)
Theorem keyboard_focus_stays_in_range (cashFlows : list CashFlowPoint)
    (keys : list string) (f : Focus) :
  (0 ≤ currentFocusIndex f < Z.of_nat (length cashFlows))%Z →
  ((0 ≤ currentFocusIndex (keydowns cashFlows keys f).1
    < Z.of_nat (length cashFlows))%Z
   ∧ Forall (fun a => ∃ p, p ∈ cashFlows ∧ cashFlow a = Some p
                           ∧ total a = Some (totalCashFlow p))
       (keydowns cashFlows keys f).2)
  ∧ (currentFocusIndex f = (Z.of_nat (length cashFlows) - 1)%Z →
     ∀ key, key ∈ ["ArrowRight"; "ArrowDown"; "End"]%string →
       currentFocusIndex (keydownListener cashFlows key f).1 = currentFocusIndex f
       ∧ (keydownListener cashFlows key f).2 = None)
  ∧ (currentFocusIndex f = 0%Z →
     ∀ key, key ∈ ["ArrowLeft"; "ArrowUp"; "Home"]%string →
       currentFocusIndex (keydownListener cashFlows key f).1 = currentFocusIndex f
       ∧ (keydownListener cashFlows key f).2 = None).
Proof.
  intros Hrange. refine (conj _ (conj _ _)).
  - revert f Hrange. induction keys as [|key keys IH]; intros f Hrange.
    + split; [exact Hrange | constructor].
    + cbn [keydowns].
      pose proof (keydownListener_in_range cashFlows key f Hrange) as Hkey.
      destruct (keydownListener cashFlows key f) as [f1 a].
      destruct Hkey as (Hrange1 & _ & Hann).
      specialize (IH f1 Hrange1).
      destruct (keydowns cashFlows keys f1) as [f2 rest]. cbn [fst snd] in *.
      destruct IH as [Hrange2 Hrest]. split; [exact Hrange2|].
      destruct a as [a|]; [|exact Hrest].
      constructor; [|exact Hrest].
      destruct (Hann a eq_refl) as (_ & p & Hp & Hcf & Htot).
      exists p. repeat split; try assumption.
      eapply list_elem_of_lookup_2, Hp.
  - intros Hlast key. rewrite !elem_of_cons, elem_of_nil.
    unfold keydownListener. cbn [currentFocusIndex isKeyboardMode].
    intros [-> | [-> | [-> | []]]];
      evaluate_key_tests;
      rewrite (bool_decide_eq_false_2 (_ ≠ _)) by lia; split; reflexivity.
  - intros Hfirst key. rewrite !elem_of_cons, elem_of_nil.
    unfold keydownListener. cbn [currentFocusIndex isKeyboardMode].
    intros [-> | [-> | [-> | []]]];
      evaluate_key_tests;
      rewrite (bool_decide_eq_false_2 (_ ≠ _)) by lia; split; reflexivity.
Qed.

(** X18.  The listener has no guard for an empty series: there [maxIndex]
    is [-1], and [ArrowRight], [ArrowDown] and [End] move the focus index
    from 0 to [-1] and announce a point and a total that are both
    [undefined]. *)
Theorem keyboard_focus_on_empty_series (key : string) (mode : bool) :
  key ∈ ["ArrowRight"; "ArrowDown"; "End"]%string →
  keydownListener [] key {| currentFocusIndex := 0; isKeyboardMode := mode |}
  = ({| currentFocusIndex := -1; isKeyboardMode := true |},
     Some {| cashFlow := None; total := None |}).
Proof.
  rewrite !elem_of_cons, elem_of_nil. unfold keydownListener.
  cbn [currentFocusIndex isKeyboardMode length].
  intros [-> | [-> | [-> | []]]]; evaluate_key_tests; reflexivity.
Qed.

Lemma keyboard_focus_on_empty_series_witness :
  keydownListener [] "End" {| currentFocusIndex := 0; isKeyboardMode := false |}
  = ({| currentFocusIndex := -1; isKeyboardMode := true |},
     Some {| cashFlow := None; total := None |}).
Proof.
  apply (keyboard_focus_on_empty_series "End" false).
  rewrite !elem_of_cons. right. right. left. reflexivity.
Defined.

End ChartFocus.

Section ChartFocusOnReferencePlatform.
Import Calculations Chart.

(** X16 at work: the eleven points of the default projection. *)
Lemma keyboard_focus_stays_in_range_witness :
  let cashFlows := generateCashFlows (H := reference_platform) 50 2 0.05 None in
  (0 ≤ currentFocusIndex
         (keydowns cashFlows ["End"; "ArrowRight"; "ArrowLeft"; "x"]%string
            (renderChart_focus {| currentFocusIndex := 3; isKeyboardMode := false |})).1
   < Z.of_nat (length cashFlows))%Z.
Proof.
  intros cashFlows.
  apply (keyboard_focus_stays_in_range cashFlows
           ["End"; "ArrowRight"; "ArrowLeft"; "x"]%string
           (renderChart_focus {| currentFocusIndex := 3; isKeyboardMode := false |})).
  cbn. lia.
Defined.

End ChartFocusOnReferencePlatform.

(** ** Currency formatting *)

Section CurrencyFormat.
Import Utils.
Context `{NumberFormat}.

Lemma abs_opp (x : float) : abs (- x) = abs x.
Proof.
  apply Prim2SF_inj. rewrite !FloatAxioms.abs_spec, FloatAxioms.opp_spec.
  destruct (Prim2SF x); reflexivity.
Qed.

Lemma opp_negative_not_negative (x : float) :
  (x <? 0) = true → (- x <? 0) = false.
Proof.
  rewrite !FloatAxioms.ltb_spec, FloatAxioms.opp_spec.
  change (Prim2SF 0) with (S754_zero false). unfold SFltb.
  destruct (Prim2SF x) as [s|s| |s m e]; cbn; try discriminate;
    destruct s; cbn; congruence.
Qed.

Lemma abs_not_negative (x : float) : (abs x <? 0) = false.
Proof.
  rewrite FloatAxioms.ltb_spec, FloatAxioms.abs_spec.
  change (Prim2SF 0) with (S754_zero false). unfold SFltb.
  destruct (Prim2SF x); reflexivity.
Qed.

(** X17.  [formatCurrency] renders a negative amount as the rendering of
    its opposite, wrapped in parentheses (or, when [signed], prefixed with a
    minus sign); the number handed to [toLocaleString] is never negative;
    and negative zero and NaN take the unsigned branch, so that [-0] is
    rendered as [0]. *)
Theorem formatCurrency_negative_is_wrapped_opposite (value : float) :
  ((value <? 0) = true →
   formatCurrency value None = "(" +:+ formatCurrency (- value) None +:+ ")"
   ∧ formatCurrency value (Some false)
     = "(" +:+ formatCurrency (- value) (Some false) +:+ ")"
   ∧ formatCurrency value (Some true)
     = "-" +:+ formatCurrency (- value) (Some true))
  ∧ (abs value <? 0) = false
  ∧ (∀ signed, formatCurrency (- 0) signed = formatCurrency 0 signed)
  ∧ (∀ signed, formatCurrency nan signed = "USD " +:+ toLocaleString_en_US_2 nan).
Proof.
  refine (conj _ (conj (abs_not_negative value) (conj _ _))).
  - intros Hneg. unfold formatCurrency. cbn [default].
    rewrite Hneg, (opp_negative_not_negative value Hneg), abs_opp.
    repeat split; reflexivity.
  - intros signed. reflexivity.
  - intros signed. reflexivity.
Qed.

End CurrencyFormat.

Section CurrencyFormatOnReferenceFormat.
Import Utils.

(** X17 at work: the initial investment of the default projection. *)
Lemma formatCurrency_negative_is_wrapped_opposite_witness :
  formatCurrency (H := reference_format) (- 54.56) None
  = ("(" +:+ formatCurrency (H := reference_format) (- - 54.56) None +:+ ")")%string.
Proof.
  apply (formatCurrency_negative_is_wrapped_opposite (H := reference_format) (- 54.56)).
  vm_compute. reflexivity.
Defined.

End CurrencyFormatOnReferenceFormat.
